(** * Revenue dashboard: the data pipeline of [app.py]

    A shallow embedding of the load / filter / aggregate pipeline of the
    Streamlit script [app.py], and the properties of the aggregation
    specification checked against it.

    Conventions of the embedding.
    - The library is pandas 3: in particular [astype(str)] keeps a missing
      value missing.
    - A pandas [DataFrame] is the list of its rows, in row order; a row is a
      record with one field per column, named as the column is.  A cell that
      pandas holds as null ([NaN], [None], [NaT]) is [None].
    - A [datetime64[ns]] value is its count of nanoseconds since 1970-01-01,
      a [datetime.date] is a (year, month, day) triple.
    - Amounts ([Total_Revenue_USD], [Avg_Session_Duration_Min]) are exact
      rationals and [series_sum], [cumsum] and [series_mean] are the exact
      sums and mean: they say which cells are added, in which groups and
      order.  The rounding of a [float64] column is outside the model; the
      wrap-around of an [int64] column is modelled apart, by
      [daily_revenue_int64].
    - The library routines whose result the script does not determine are
      taken as parameters: the day-first date parser behind
      [pd.to_datetime], the clock behind [pd.to_datetime("today")], and the
      sorting algorithm ([kind='quicksort'], the pandas default), of which
      only the contract "a sorted permutation of the input" is assumed. *)

From Stdlib Require Import ZArith QArith List String Ascii Bool Lia.
From Stdlib Require Import Permutation Sorted.
Import ListNotations.

Local Open Scope string_scope.
Local Open Scope list_scope.
Local Open Scope Z_scope.

(* ------------------------------------------------------------------ *)
(** ** Calendar arithmetic behind the [.dt] accessors *)

Module Calendar.

(** [datetime.date]. *)
Record Date : Type := mkDate { year : Z; month : Z; day : Z }.

(** [datetime64[ns]]: nanoseconds since the epoch. *)
Definition Timestamp : Type := Z.

(** [Period[M]]: a calendar month. *)
Record Period : Type := mkPeriod { p_year : Z; p_month : Z }.

Definition ns_per_day : Z := 86400 * 1000000000.

(** Day number (days since 1970-01-01) of a proleptic Gregorian date. *)
Definition days_from_civil (d : Date) : Z :=
  let y := if month d <=? 2 then year d - 1 else year d in
  let era := y / 400 in
  let yoe := y - era * 400 in
  let mp := (month d + 9) mod 12 in
  let doy := (153 * mp + 2) / 5 + day d - 1 in
  let doe := yoe * 365 + yoe / 4 - yoe / 100 + doy in
  era * 146097 + doe - 719468.

(** The date of a day number. *)
Definition civil_from_days (n : Z) : Date :=
  let z := n + 719468 in
  let era := z / 146097 in
  let doe := z - era * 146097 in
  let yoe := (doe - doe / 1460 + doe / 36524 - doe / 146096) / 365 in
  let doy := doe - (365 * yoe + yoe / 4 - yoe / 100) in
  let mp := (5 * doy + 2) / 153 in
  let d := doy - (153 * mp + 2) / 5 + 1 in
  let m := if mp <? 10 then mp + 3 else mp - 9 in
  let y := yoe + era * 400 in
  mkDate (if m <=? 2 then y + 1 else y) m d.

Definition day_number (t : Timestamp) : Z := t / ns_per_day.

(** [Timestamp.date()]. *)
Definition date_of (t : Timestamp) : Date := civil_from_days (day_number t).

(** Day of the week, Sunday = 0 (1970-01-01 was a Thursday). *)
Definition weekday_sun0 (n : Z) : Z := (n + 4) mod 7.

(** Day of the year, 1 January = 0. *)
Definition yday0 (n : Z) : Z :=
  n - days_from_civil (mkDate (year (civil_from_days n)) 1 1).

(** [%U]: week of the year, weeks starting on Sunday; the days before the
    first Sunday are in week 0. *)
Definition week_U (n : Z) : Z := (yday0 n + 7 - weekday_sun0 n) / 7.

(** The last [w] decimal digits of [n], most significant first. *)
Fixpoint dec_digits (w : nat) (n : Z) (acc : string) : string :=
  match w with
  | O => acc
  | S w' =>
      dec_digits w' (n / 10)
        (String (ascii_of_nat (48 + Z.to_nat (n mod 10))) acc)
  end.

Definition zero_pad (w : nat) (n : Z) : string := dec_digits w n "".

(** [strftime('%Y-%U')] (every [datetime64[ns]] year has four digits). *)
Definition strftime_Y_U (t : Timestamp) : string :=
  (zero_pad 4 (year (date_of t)) ++ "-"
     ++ zero_pad 2 (week_U (day_number t)))%string.

(** [to_period('M')] of one timestamp. *)
Definition period_M (t : Timestamp) : Period :=
  mkPeriod (year (date_of t)) (month (date_of t)).

(** [str] of a monthly period: ['%Y-%m']. *)
Definition period_str (p : Period) : string :=
  (zero_pad 4 (p_year p) ++ "-" ++ zero_pad 2 (p_month p))%string.

(** [Timedelta.days]: whole days, rounded towards minus infinity. *)
Definition timedelta_days (delta_ns : Z) : Z := delta_ns / ns_per_day.

(** Midnight of a date, as a timestamp. *)
Definition timestamp_of_date (d : Date) : Timestamp :=
  days_from_civil d * ns_per_day.

Definition date_eqb (a b : Date) : bool :=
  (year a =? year b) && (month a =? month b) && (day a =? day b).

(** Chronological order of [datetime.date] values. *)
Definition date_leb (a b : Date) : bool :=
  (year a <? year b)
  || ((year a =? year b)
      && ((month a <? month b)
          || ((month a =? month b) && (day a <=? day b)))).

End Calendar.
Import Calendar.

(* ------------------------------------------------------------------ *)
(** ** Column values that can be grouped on *)

(** Equality and ascending order of the values of a key column, as pandas
    compares them: strings by code point, dates and timestamps
    chronologically. *)
Class Key (K : Type) : Type := {
  key_eqb : K -> K -> bool;
  key_leb : K -> K -> bool;
  key_eqb_eq : forall a b, key_eqb a b = true <-> a = b;
  key_leb_total : forall a b, key_leb a b = true \/ key_leb b a = true;
  key_leb_trans :
    forall a b c, key_leb a b = true -> key_leb b c = true ->
                  key_leb a c = true;
  key_leb_antisym :
    forall a b, key_leb a b = true -> key_leb b a = true -> a = b
}.

Lemma ascii_compare_lt_trans (a b c : ascii) :
  Ascii.compare a b = Lt -> Ascii.compare b c = Lt -> Ascii.compare a c = Lt.
Proof.
  unfold Ascii.compare. rewrite !N.compare_lt_iff. apply N.lt_trans.
Qed.

Lemma string_compare_lt_trans (a : string) :
  forall b c, String.compare a b = Lt -> String.compare b c = Lt ->
              String.compare a c = Lt.
Proof.
  induction a as [|x a IH]; intros [|y b] [|z c]; simpl; try congruence.
  destruct (Ascii.compare x y) eqn:Exy; try discriminate;
    destruct (Ascii.compare y z) eqn:Eyz; try discriminate; intros Hab Hbc.
  - apply Ascii.compare_eq_iff in Exy, Eyz. subst.
    replace (Ascii.compare z z) with Eq
      by (symmetry; unfold Ascii.compare; apply N.compare_refl).
    eauto.
  - apply Ascii.compare_eq_iff in Exy. subst. now rewrite Eyz.
  - apply Ascii.compare_eq_iff in Eyz. subst. now rewrite Exy.
  - now rewrite (ascii_compare_lt_trans _ _ _ Exy Eyz).
Qed.

Lemma string_leb_trans (a b c : string) :
  String.leb a b = true -> String.leb b c = true -> String.leb a c = true.
Proof.
  unfold String.leb.
  destruct (String.compare a b) eqn:Eab; try discriminate;
    destruct (String.compare b c) eqn:Ebc; try discriminate; intros _ _.
  - apply String.compare_eq_iff in Eab, Ebc. subst.
    destruct (String.compare c c) eqn:E; auto.
    pose proof (String.compare_antisym c c) as H. rewrite E in H. discriminate.
  - apply String.compare_eq_iff in Eab. subst. now rewrite Ebc.
  - apply String.compare_eq_iff in Ebc. subst. now rewrite Eab.
  - now rewrite (string_compare_lt_trans _ _ _ Eab Ebc).
Qed.

#[export] Instance Key_string : Key string := {
  key_eqb := String.eqb;
  key_leb := String.leb;
  key_eqb_eq := String.eqb_eq;
  key_leb_total := String.leb_total;
  key_leb_trans := string_leb_trans;
  key_leb_antisym := String.leb_antisym
}.

Lemma Z_leb_total (a b : Z) : (a <=? b) = true \/ (b <=? a) = true.
Proof. rewrite !Z.leb_le. lia. Qed.

Lemma Z_leb_trans (a b c : Z) :
  (a <=? b) = true -> (b <=? c) = true -> (a <=? c) = true.
Proof. rewrite !Z.leb_le. lia. Qed.

Lemma Z_leb_antisym (a b : Z) :
  (a <=? b) = true -> (b <=? a) = true -> a = b.
Proof. rewrite !Z.leb_le. lia. Qed.

#[export] Instance Key_Timestamp : Key Timestamp := {
  key_eqb := Z.eqb;
  key_leb := Z.leb;
  key_eqb_eq := Z.eqb_eq;
  key_leb_total := Z_leb_total;
  key_leb_trans := Z_leb_trans;
  key_leb_antisym := Z_leb_antisym
}.

Ltac date_order :=
  unfold date_eqb, date_leb;
  repeat rewrite ?andb_true_iff, ?orb_true_iff, ?Z.eqb_eq, ?Z.ltb_lt,
    ?Z.leb_le.

Lemma date_eqb_eq (a b : Date) : date_eqb a b = true <-> a = b.
Proof.
  destruct a, b; date_order; simpl. split.
  - intros [[-> ->] ->]. reflexivity.
  - intros [= -> -> ->]. auto.
Qed.

Lemma date_leb_total (a b : Date) :
  date_leb a b = true \/ date_leb b a = true.
Proof. destruct a, b; date_order; simpl. lia. Qed.

Lemma date_leb_trans (a b c : Date) :
  date_leb a b = true -> date_leb b c = true -> date_leb a c = true.
Proof. destruct a, b, c; date_order; simpl. lia. Qed.

Lemma date_leb_antisym (a b : Date) :
  date_leb a b = true -> date_leb b a = true -> a = b.
Proof.
  destruct a, b; date_order; simpl. intros H1 H2. f_equal; lia.
Qed.

#[export] Instance Key_Date : Key Date := {
  key_eqb := date_eqb;
  key_leb := date_leb;
  key_eqb_eq := date_eqb_eq;
  key_leb_total := date_leb_total;
  key_leb_trans := date_leb_trans;
  key_leb_antisym := date_leb_antisym
}.

(* ------------------------------------------------------------------ *)
(** ** The sorting algorithm *)

Definition sorted_by {A : Type} (leb : A -> A -> bool) : list A -> Prop :=
  StronglySorted (fun a b => leb a b = true).

(** [sort_values], [sort_index] and the key sort of [groupby] are called
    with the default [kind='quicksort'], which pandas documents as not
    stable.  The algorithm is therefore an interface: all that is known of
    its result is that it is a permutation of the input, in order. *)
Class Sorter : Type := {
  sort : forall A : Type, (A -> A -> bool) -> list A -> list A;
  sort_perm :
    forall A (leb : A -> A -> bool) l, Permutation l (sort A leb l);
  sort_sorted :
    forall A (leb : A -> A -> bool) l,
      (forall a b, leb a b = true \/ leb b a = true) ->
      (forall a b c, leb a b = true -> leb b c = true -> leb a c = true) ->
      sorted_by leb (sort A leb l)
}.
Arguments sort {_} {A} leb l.

(** An algorithm that meets the interface: insertion sort, which puts an
    element before the elements [before] says it precedes. *)
Fixpoint insert_by {A : Type} (before : A -> A -> bool) (x : A) (l : list A)
  : list A :=
  match l with
  | [] => [x]
  | y :: l' => if before x y then x :: l else y :: insert_by before x l'
  end.

Definition insertion_sort {A : Type} (before : A -> A -> bool) (l : list A)
  : list A :=
  fold_right (insert_by before) [] l.

Section InsertionSort.
Context {A : Type} (leb before : A -> A -> bool).
Hypothesis before_true : forall x y, before x y = true -> leb x y = true.
Hypothesis before_false : forall x y, before x y = false -> leb y x = true.
Hypothesis leb_trans :
  forall a b c, leb a b = true -> leb b c = true -> leb a c = true.

Lemma insert_by_perm (x : A) (l : list A) :
  Permutation (x :: l) (insert_by before x l).
Proof.
  induction l as [|y l IH]; simpl; [reflexivity|].
  destruct (before x y); [reflexivity|].
  rewrite perm_swap. now constructor.
Qed.

Lemma insertion_sort_perm (l : list A) :
  Permutation l (insertion_sort before l).
Proof.
  induction l as [|x l IH]; simpl; [constructor|].
  rewrite <- insert_by_perm. now constructor.
Qed.

Lemma insert_by_sorted (x : A) (l : list A) :
  sorted_by leb l -> sorted_by leb (insert_by before x l).
Proof.
  unfold sorted_by.
  induction l as [|y l IH]; simpl; intros Hs.
  - repeat constructor.
  - apply StronglySorted_inv in Hs as [Hl Hy].
    destruct (before x y) eqn:E.
    + constructor; [now constructor|].
      constructor; [now apply before_true|].
      apply before_true in E.
      eapply Forall_impl; [|exact Hy]. intros z Hz. eauto.
    + constructor; [auto|].
      apply (Permutation_Forall (insert_by_perm x l)).
      constructor; [now apply before_false|exact Hy].
Qed.

Lemma insertion_sort_sorted (l : list A) :
  sorted_by leb (insertion_sort before l).
Proof.
  induction l as [|x l IH]; simpl; [constructor|].
  now apply insert_by_sorted.
Qed.

End InsertionSort.

(** Ties stay in input order (what [kind='stable'] would give). *)
Definition stable_sorter : Sorter := {|
  sort A leb := insertion_sort leb;
  sort_perm A leb := insertion_sort_perm leb;
  sort_sorted A leb l Htot Htrans :=
    insertion_sort_sorted leb leb (fun _ _ H => H)
      (fun x y H =>
         match Htot x y with
         | or_introl E => False_ind _ (eq_true_false_abs _ E H)
         | or_intror E => E
         end)
      Htrans l
|}.

(* ------------------------------------------------------------------ *)
(** ** Series and group-by operations of pandas *)

(** [Series.dropna]. *)
Fixpoint dropna {A : Type} (col : list (option A)) : list A :=
  match col with
  | [] => []
  | Some a :: col' => a :: dropna col'
  | None :: col' => dropna col'
  end.

(** [unique]: the distinct values, in order of first appearance. *)
Fixpoint unique {K : Type} `{Key K} (l : list K) : list K :=
  match l with
  | [] => []
  | x :: l' => x :: filter (fun y => negb (key_eqb y x)) (unique l')
  end.

(** [Series.nunique()] (with the default [dropna=True]). *)
Definition nunique {K : Type} `{Key K} (col : list (option K)) : nat :=
  List.length (unique (dropna col)).

(** [Series.isin(values)] on one cell; [values] holds no null. *)
Definition isin (cell : option string) (values : list string) : bool :=
  match cell with
  | Some v => existsb (String.eqb v) values
  | None => false
  end.

(** [Series.sum()]: nulls are skipped, the empty sum is 0. *)
Definition series_sum (col : list (option Q)) : Q :=
  fold_left Qplus (dropna col) 0%Q.

(** [Series.mean()]: nulls are skipped, [NaN] when nothing is left. *)
Definition series_mean (col : list (option Q)) : option Q :=
  match dropna col with
  | [] => None
  | vs => Some (fold_left Qplus vs 0%Q / inject_Z (Z.of_nat (List.length vs)))%Q
  end.

(** Running sum from [acc] on. *)
Fixpoint cumsum_from {K : Type} (acc : Q) (s : list (K * Q)) : list (K * Q) :=
  match s with
  | [] => []
  | (k, v) :: s' => (k, (acc + v)%Q) :: cumsum_from (acc + v)%Q s'
  end.

(** [Series.cumsum()] of a series without nulls. *)
Definition cumsum {K : Type} (s : list (K * Q)) : list (K * Q) :=
  match s with
  | [] => []
  | (k, v) :: s' => (k, v) :: cumsum_from v s'
  end.

(** [DataFrame.head(n)]. *)
Definition head {A : Type} (n : nat) (l : list A) : list A := firstn n l.

(** Order of the entries of a series by their index. *)
Definition fst_leb {K V : Type} `{Key K} (p q : K * V) : bool :=
  key_leb (fst p) (fst q).

Section GroupBy.
Context {S : Sorter} {R K : Type} `{Key K}.

(** Whether a row's key cell holds [k]. *)
Definition has_key (by_ : R -> option K) (k : K) (r : R) : bool :=
  match by_ r with
  | Some k' => key_eqb k' k
  | None => false
  end.

(** Whether a row's key cell holds one of the keys [ks]. *)
Definition has_key_among (by_ : R -> option K) (ks : list K) (r : R)
  : bool :=
  existsb (fun k => has_key by_ k r) ks.

(** The group keys of [df.groupby(by)]: with the defaults [dropna=True]
    and [sort=True], the distinct non-null values of the key column in
    ascending order. *)
Definition group_keys (by_ : R -> option K) (df : list R) : list K :=
  sort key_leb (unique (dropna (map by_ df))).

(** [df.groupby(by)]: each group key with the rows of its group, in row
    order. *)
Definition groupby (by_ : R -> option K) (df : list R) : list (K * list R) :=
  map (fun k => (k, filter (has_key by_ k) df)) (group_keys by_ df).

(** [Series.sort_index()] of a series indexed by keys. *)
Definition sort_index {V : Type} (s : list (K * V)) : list (K * V) :=
  sort fst_leb s.

End GroupBy.

(** [df.groupby(by)[col].nunique().reset_index(name=...)]. *)
Definition groupby_nunique {S : Sorter} {R K U : Type} `{Key K} `{Key U}
  (by_ : R -> option K) (col : R -> option U) (df : list R) : list (K * nat) :=
  map (fun g => (fst g, nunique (map col (snd g)))) (groupby by_ df).

(** [df.groupby(by)[col].sum()]. *)
Definition groupby_sum {S : Sorter} {R K : Type} `{Key K}
  (by_ : R -> option K) (col : R -> option Q) (df : list R) : list (K * Q) :=
  map (fun g => (fst g, series_sum (map col (snd g)))) (groupby by_ df).

(* ------------------------------------------------------------------ *)
(** ** The data set *)

(** A column name, as Python holds it: the sequence of its code points. *)
Definition PyStr : Type := list Z.

(** [str.isspace] on one code point: the whitespace of Unicode. *)
Definition isspace (c : Z) : bool :=
  ((9 <=? c) && (c <=? 13)) || ((28 <=? c) && (c <=? 32))
  || (c =? 133) || (c =? 160) || (c =? 5760)
  || ((8192 <=? c) && (c <=? 8202))
  || (c =? 8232) || (c =? 8233) || (c =? 8239) || (c =? 8287)
  || (c =? 12288).

Fixpoint lstrip (s : PyStr) : PyStr :=
  match s with
  | [] => []
  | c :: s' => if isspace c then lstrip s' else s
  end.

(** [str.strip()]: without the whitespace at both ends. *)
Definition strip (s : PyStr) : PyStr := rev (lstrip (rev (lstrip s))).

(** [str.replace(" ", "_")]. *)
Definition replace_space (s : PyStr) : PyStr :=
  map (fun c => if c =? 32 then 95 else c) s.

(** [df.columns.str.strip().str.replace(" ", "_")] on one column name. *)
Definition normalize_column (name : PyStr) : PyStr :=
  replace_space (strip name).

(** A name without whitespace at either end. *)
Definition trimmed (s : PyStr) : Prop :=
  lstrip s = s /\ lstrip (rev s) = rev s.

(** The code points of a string of ASCII characters. *)
Definition codepoints (s : string) : PyStr :=
  map (fun c => Z.of_nat (nat_of_ascii c)) (list_ascii_of_string s).

(** One line of [data.csv] as [pd.read_csv] types it, under the column
    names left by [df.columns.str.strip().str.replace(" ", "_")]; the two
    date columns are still text. *)
Record CsvRow : Type := mkCsvRow {
  csv_User_ID : option string;
  csv_Username : option string;
  csv_Country : option string;
  csv_Device_Type : option string;
  csv_Subscription_Tier : option string;
  csv_Preferred_Game_Mode : option string;
  csv_Signup_Date : option string;
  csv_Last_Login : option string;
  csv_Total_Revenue_USD : option Q;
  csv_Avg_Session_Duration_Min : option Q;
  csv_Total_Play_Sessions : option Z
}.

(** One row of the frame returned by [load_data]. *)
Record Row : Type := mkRow {
  User_ID : option string;
  Username : option string;
  Country : option string;
  Device_Type : option string;
  Subscription_Tier : option string;
  Preferred_Game_Mode : option string;
  Signup_Date : option Timestamp;
  Last_Login : option Timestamp;
  Total_Revenue_USD : option Q;
  Avg_Session_Duration_Min : option Q;
  Total_Play_Sessions : option Z;
  Login_Date : option Date;
  Week : option string;
  Month : option string;
  Days_Since_Last_Login : option Z
}.

Definition DataFrame : Type := list Row.

(** [df.empty] (the frame always has its columns). *)
Definition empty (df : DataFrame) : bool :=
  match df with
  | [] => true
  | _ :: _ => false
  end.

(** [.astype(str)] on a cell of a period column: the string of the
    period; the missing period [NaT] stays missing. *)
Definition period_astype_str (p : option Period) : option string :=
  match p with
  | Some p => Some (period_str p)
  | None => None
  end.

(** The [Month] and the [Week] of the logins of one calendar day. *)
Definition month_of_date (d : Date) : string :=
  period_str (mkPeriod (year d) (month d)).

Definition week_of_date (d : Date) : string :=
  (zero_pad 4 (year d) ++ "-"
     ++ zero_pad 2 (week_U (days_from_civil d)))%string.

Section Load.
(** The day-first parser of [pd.to_datetime(..., dayfirst=True)] on one
    text cell, [None] where it fails, and the instant
    [pd.to_datetime("today")]. *)
Variable parse_datetime : string -> option Timestamp.
Variable today : Timestamp.

(** [pd.to_datetime(col, dayfirst=True, errors='coerce')] on one cell: a
    missing or unparseable value becomes [NaT]. *)
Definition to_datetime (cell : option string) : option Timestamp :=
  match cell with
  | Some s => parse_datetime s
  | None => None
  end.

Definition load_row (c : CsvRow) : Row :=
  let signup_date := to_datetime (csv_Signup_Date c) in
  let last_login := to_datetime (csv_Last_Login c) in
  {| User_ID := csv_User_ID c;
     Username := csv_Username c;
     Country := csv_Country c;
     Device_Type := csv_Device_Type c;
     Subscription_Tier := csv_Subscription_Tier c;
     Preferred_Game_Mode := csv_Preferred_Game_Mode c;
     Signup_Date := signup_date;
     Last_Login := last_login;
     Total_Revenue_USD := csv_Total_Revenue_USD c;
     Avg_Session_Duration_Min := csv_Avg_Session_Duration_Min c;
     Total_Play_Sessions := csv_Total_Play_Sessions c;
     (* df['Last_Login'].dt.date *)
     Login_Date := option_map date_of last_login;
     (* df['Last_Login'].dt.strftime('%Y-%U') *)
     Week := option_map strftime_Y_U last_login;
     (* df['Last_Login'].dt.to_period('M').astype(str) *)
     Month := period_astype_str (option_map period_M last_login);
     (* (pd.to_datetime("today") - df['Last_Login']).dt.days *)
     Days_Since_Last_Login :=
       option_map (fun t => timedelta_days (today - t)) last_login |}.

(** [load_data], from the parsed contents of [data.csv]. *)
Definition load_data (csv : list CsvRow) : DataFrame := map load_row csv.

End Load.

(* ------------------------------------------------------------------ *)
(** ** Filter and aggregates *)

Definition notna {A : Type} (cell : option A) : bool :=
  match cell with
  | Some _ => true
  | None => false
  end.

(** The options of a sidebar multiselect: [df[col].dropna().unique()]. *)
Definition options (col : Row -> option string) (df : DataFrame)
  : list string :=
  unique (dropna (map col df)).

(** [df[df["Country"].isin(selected_country)
        & df["Device_Type"].isin(selected_device)]]. *)
Definition filtered_df (df : DataFrame)
  (selected_country selected_device : list string) : DataFrame :=
  filter (fun r => isin (Country r) selected_country
                   && isin (Device_Type r) selected_device) df.

(** The three key metrics. *)
Definition total_users (view : DataFrame) : nat :=
  nunique (map User_ID view).

Definition total_revenue (view : DataFrame) : Q :=
  series_sum (map Total_Revenue_USD view).

Definition avg_session_duration (view : DataFrame) : option Q :=
  series_mean (map Avg_Session_Duration_Min view).

(** Order of [sort_values(by='Total_Revenue_USD', ascending=False)]:
    larger revenue first, nulls last ([na_position='last']). *)
Definition revenue_desc_leb (r1 r2 : Row) : bool :=
  match Total_Revenue_USD r1, Total_Revenue_USD r2 with
  | Some a, Some b => Qle_bool b a
  | Some _, None => true
  | None, Some _ => false
  | None, None => true
  end.

(** The rows of a frame that have a last login. *)
Definition with_login (view : DataFrame) : DataFrame :=
  filter (fun r => notna (Last_Login r)) view.

Section Aggregates.
Context {S : Sorter}.

Definition dau (view : DataFrame) : list (Date * nat) :=
  groupby_nunique Login_Date User_ID view.

Definition wau (view : DataFrame) : list (string * nat) :=
  groupby_nunique Week User_ID view.

Definition monthly_active_users (df : DataFrame) : list (string * nat) :=
  groupby_nunique Month User_ID df.

(** [df.dropna(subset=['Signup_Date']).copy()]; the second [to_datetime]
    leaves a column of timestamps as it is. *)
Definition revenue_by_signup (df : DataFrame) : DataFrame :=
  filter (fun r => notna (Signup_Date r)) df.

Definition daily_revenue (df : DataFrame) : list (Timestamp * Q) :=
  cumsum
    (sort_index
       (groupby_sum Signup_Date Total_Revenue_USD (revenue_by_signup df))).

Definition rev_device (view : DataFrame) : list (string * Q) :=
  groupby_sum Device_Type Total_Revenue_USD view.

Definition rev_tier (view : DataFrame) : list (string * Q) :=
  groupby_sum Subscription_Tier Total_Revenue_USD view.

Definition rev_mode (view : DataFrame) : list (string * Q) :=
  groupby_sum Preferred_Game_Mode Total_Revenue_USD view.

(** [sort_values(by='Total_Revenue_USD', ascending=False)]: the rows with
    a revenue are sorted, the rows without one follow in row order. *)
Definition sort_values_Total_Revenue_USD (view : DataFrame) : DataFrame :=
  sort revenue_desc_leb (filter (fun r => notna (Total_Revenue_USD r)) view)
  ++ filter (fun r => negb (notna (Total_Revenue_USD r))) view.

Definition top_10 (view : DataFrame) : DataFrame :=
  head 10 (sort_values_Total_Revenue_USD view).

End Aggregates.

(** *** The arithmetic of an [int64] column *)











(** [out] is the series of distinct-user counts of the view per value of
    the key column [by_]: one bucket per distinct non-null value, in
    ascending order, each with the number of distinct non-null
    [User_ID]s among the rows of that value. *)
Definition buckets_of {K : Type} `{Key K} (by_ : Row -> option K)
  (view : DataFrame) (out : list (K * nat)) : Prop :=
  NoDup (map fst out)
  /\ sorted_by key_leb (map fst out)
  /\ (forall k, In k (map fst out) <-> exists r, In r view /\ by_ r = Some k)
  /\ Forall (fun b =>
       snd b = nunique (map User_ID (filter (has_key by_ (fst b)) view))) out.

(** The bucket counts add up to at least the number of distinct users
    among the rows that have a key, and to at most the number of those
    rows. *)
Definition counts_cover {K : Type} (by_ : Row -> option K)
  (view : DataFrame) (out : list (K * nat)) : Prop :=
  let keyed := filter (fun r => notna (by_ r)) view in
  (total_users keyed <= list_sum (map snd out) <= List.length keyed)%nat.

(** The segment columns of the three bar charts. *)
Inductive SegmentField : Type :=
| SegDevice_Type
| SegSubscription_Tier
| SegPreferred_Game_Mode.

Definition segment_column (f : SegmentField) : Row -> option string :=
  match f with
  | SegDevice_Type => Device_Type
  | SegSubscription_Tier => Subscription_Tier
  | SegPreferred_Game_Mode => Preferred_Game_Mode
  end.

(** The three bar charts: [rev_device], [rev_tier], [rev_mode]. *)
Definition revenue_by_segment {S : Sorter} (f : SegmentField)
  (view : DataFrame) : list (string * Q) :=
  match f with
  | SegDevice_Type => rev_device view
  | SegSubscription_Tier => rev_tier view
  | SegPreferred_Game_Mode => rev_mode view
  end.

(* ------------------------------------------------------------------ *)
(** ** The script *)

(** What a run of the script puts on the page, in order. *)
Inductive Event : Type :=
| PageConfig (title : string)
| Markdown (text : string)
| Caption (text : string)
| Success (records : nat)
| Header (text : string)
| Multiselect (label : string) (choices selected : list string)
| Info (records : nat)
| Divider
| Subheader (text : string)
| MetricUsers (value : nat)
| MetricRevenue (value : Q)
| MetricSession (value : option Q)
| ChartDaily (data : list (Date * nat))
| ChartWeekly (data : list (string * nat))
| ChartMonthly (data : list (string * nat))
| ChartRevenue (data : list (Timestamp * Q))
| ChartBar (title : string) (data : list (string * Q))
| Table (rows : list (option string * option Q * option Z * option string)).

(** Failures of [pd.read_csv]. *)
Inductive Exn : Type :=
| FileNotFoundError
| EmptyDataError.

(** How a run ends: at the last line, at [st.stop()], or on an exception
    nothing catches. *)
Inductive Outcome (A : Type) : Type :=
| Done (a : A)
| Stopped
| Raised (e : Exn).
Arguments Done {A} a.
Arguments Stopped {A}.
Arguments Raised {A} e.

(** A script step: the events it emits and how it ends. *)
Definition Script (A : Type) : Type := (list Event * Outcome A)%type.

Definition ret {A : Type} (a : A) : Script A := ([], Done a).

Definition bind {A B : Type} (m : Script A) (f : A -> Script B) : Script B :=
  match m with
  | (t, Done a) => let (t', o) := f a in (t ++ t', o)
  | (t, Stopped) => (t, Stopped)
  | (t, Raised e) => (t, Raised e)
  end.

Definition emit (e : Event) : Script unit := ([e], Done tt).
Definition st_stop : Script unit := ([], Stopped).

Notation "x <- m ;; k" := (bind m (fun x => k))
  (at level 61, m at next level, right associativity).
Notation "m ;; k" := (bind m (fun _ => k))
  (at level 61, right associativity).

(** [pd.read_csv("data.csv")]: the file's rows, or the exception. *)
Definition read_csv (data_csv : Exn + list CsvRow) : Script (list CsvRow) :=
  match data_csv with
  | inl e => ([], Raised e)
  | inr rows => ret rows
  end.

(** The state of the two sidebar widgets: what [st.multiselect] returns
    for the choices it is given (on a first run, its [default], which is
    all of them). *)
Record Widgets : Type := mkWidgets {
  multiselect_Country : list string -> list string;
  multiselect_Device_Type : list string -> list string
}.

(** The frames bound by the script when it reaches its last line. *)
Record Globals : Type := mkGlobals {
  g_df : DataFrame;
  g_filtered_df : DataFrame;
  g_dau : list (Date * nat);
  g_wau : list (string * nat);
  g_monthly_active_users : list (string * nat);
  g_daily_revenue : list (Timestamp * Q);
  g_rev_device : list (string * Q);
  g_rev_tier : list (string * Q);
  g_rev_mode : list (string * Q);
  g_top_10 : DataFrame
}.

Definition table_columns (r : Row)
  : option string * option Q * option Z * option string :=
  (Username r, Total_Revenue_USD r, Total_Play_Sessions r,
   Preferred_Game_Mode r).

(** The three lines above [load_data()]. *)
Definition page_top : list Event :=
  [ PageConfig "User Behavior & Revenue Dashboard";
    Markdown "## User Behavior & Revenue Dashboard";
    Caption
      "Interactive analysis of user engagement, monetization, and churn patterns" ].

Section App.
Context {S : Sorter}.
Variable parse_datetime : string -> option Timestamp.
Variable today : Timestamp.

(** The script from the filters on: everything below [st.success]. *)
Definition dashboard (df : DataFrame) (ui : Widgets) : Script Globals :=
  emit (Header "Filter Data") ;;
  let selected_country := multiselect_Country ui (options Country df) in
  emit (Multiselect "Country" (options Country df) selected_country) ;;
  let selected_device :=
    multiselect_Device_Type ui (options Device_Type df) in
  emit (Multiselect "Device Type" (options Device_Type df) selected_device) ;;
  let view := filtered_df df selected_country selected_device in
  emit (Info (List.length view)) ;;
  emit Divider ;;
  emit (Subheader "Key Metrics Overview") ;;
  emit (MetricUsers (total_users view)) ;;
  emit (MetricRevenue (total_revenue view)) ;;
  emit (MetricSession (avg_session_duration view)) ;;
  emit Divider ;;
  emit (Subheader "Engagement Trends") ;;
  emit (ChartDaily (dau view)) ;;
  emit (ChartWeekly (wau view)) ;;
  emit (ChartMonthly (monthly_active_users df)) ;;
  emit Divider ;;
  emit (Subheader "Cumulative Revenue Trend (by Signup Date)") ;;
  emit (ChartRevenue (daily_revenue df)) ;;
  emit Divider ;;
  emit (Subheader "Revenue Breakdown by Segment") ;;
  emit (ChartBar "By Device Type" (rev_device view)) ;;
  emit (ChartBar "By User Segment" (rev_tier view)) ;;
  emit (ChartBar "By Game Mode" (rev_mode view)) ;;
  emit Divider ;;
  emit (Subheader "High-Value Users") ;;
  emit (Table (map table_columns (top_10 view))) ;;
  emit Divider ;;
  emit (Caption "Built by Sahil") ;;
  ret {| g_df := df;
         g_filtered_df := view;
         g_dau := dau view;
         g_wau := wau view;
         g_monthly_active_users := monthly_active_users df;
         g_daily_revenue := daily_revenue df;
         g_rev_device := rev_device view;
         g_rev_tier := rev_tier view;
         g_rev_mode := rev_mode view;
         g_top_10 := top_10 view |}.

(** One run of [app.py] on the contents of [data.csv]. *)
Definition app (data_csv : Exn + list CsvRow) (ui : Widgets)
  : Script Globals :=
  emit (PageConfig "User Behavior & Revenue Dashboard") ;;
  emit (Markdown "## User Behavior & Revenue Dashboard") ;;
  emit (Caption
    "Interactive analysis of user engagement, monetization, and churn patterns") ;;
  csv <- read_csv data_csv ;;
  let df := load_data parse_datetime today csv in
  (if empty df then st_stop else ret tt) ;;
  emit (Success (List.length df)) ;;
  dashboard df ui.

(** The Monthly Active Users chart of a run is a function of the file
    alone. *)
Definition monthly_of_file (data_csv : Exn + list CsvRow)
  : list (list (string * nat)) :=
  match data_csv with
  | inl _ => []
  | inr [] => []
  | inr csv => [monthly_active_users (load_data parse_datetime today csv)]
  end.

End App.

(** The events of a run and its final bindings, if it got that far. *)
Definition events {A : Type} (s : Script A) : list Event := fst s.

Definition globals {A : Type} (s : Script A) : option A :=
  match snd s with
  | Done a => Some a
  | _ => None
  end.

(** The data of the Monthly Active Users charts among some events. *)
Fixpoint monthly_charts (t : list Event) : list (list (string * nat)) :=
  match t with
  | [] => []
  | ChartMonthly data :: t' => data :: monthly_charts t'
  | _ :: t' => monthly_charts t'
  end.

(** The data of the cumulative revenue charts among some events. *)
Fixpoint revenue_charts (t : list Event) : list (list (Timestamp * Q)) :=
  match t with
  | [] => []
  | ChartRevenue data :: t' => data :: revenue_charts t'
  | _ :: t' => revenue_charts t'
  end.

(* ------------------------------------------------------------------ *)
(** ** A fixture: a strict day-first parser and a small data set *)

Definition digit (c : ascii) : option Z :=
  let n := Z.of_nat (nat_of_ascii c) in
  if (48 <=? n) && (n <=? 57) then Some (n - 48) else None.

Definition number (cs : list ascii) : option Z :=
  fold_left
    (fun acc c =>
       match acc, digit c with
       | Some n, Some d => Some (10 * n + d)
       | _, _ => None
       end) cs (Some 0).

(** Accepts exactly [DD/MM/YYYY] with a date that exists; one of the many
    formats [pd.to_datetime(..., dayfirst=True)] reads. *)
Definition parse_dmy (s : string) : option Timestamp :=
  match list_ascii_of_string s with
  | [d1; d2; s1; m1; m2; s2; y1; y2; y3; y4] =>
      match number [d1; d2], number [m1; m2], number [y1; y2; y3; y4] with
      | Some d, Some m, Some y =>
          let date := mkDate y m d in
          if Ascii.eqb s1 "/" && Ascii.eqb s2 "/"
             && date_eqb (civil_from_days (days_from_civil date)) date
          then Some (timestamp_of_date date)
          else None
      | _, _, _ => None
      end
  | _ => None
  end.

Definition sample_today : Timestamp := timestamp_of_date (mkDate 2025 1 1).

Definition csv_line (user country device tier signup login : string)
  (revenue : Z) : CsvRow :=
  {| csv_User_ID := Some user;
     csv_Username := Some user;
     csv_Country := Some country;
     csv_Device_Type := Some device;
     csv_Subscription_Tier := if String.eqb tier "" then None else Some tier;
     csv_Preferred_Game_Mode := Some "Solo";
     csv_Signup_Date := Some signup;
     csv_Last_Login := Some login;
     csv_Total_Revenue_USD := Some (inject_Z revenue);
     csv_Avg_Session_Duration_Min := Some (inject_Z 30);
     csv_Total_Play_Sessions := Some 12 |}.

Definition sample_csv : list CsvRow :=
  [ csv_line "A" "US" "Mobile" "Gold" "05/03/2024" "14/06/2024" 10;
    csv_line "B" "US" "Desktop" "" "01/02/2024" "not a date" 20;
    csv_line "A" "FR" "Mobile" "Free" "05/03/2024" "15/06/2024" 5 ].

Definition sample_df : DataFrame := load_data parse_dmy sample_today sample_csv.

(** The second record of the sample: no tier, no parseable last login. *)
Definition sample_row_B : Row :=
  load_row parse_dmy sample_today
    (csv_line "B" "US" "Desktop" "" "01/02/2024" "not a date" 20).

(* ------------------------------------------------------------------ *)
(** ** The aggregates in the specification's words *)

(** The records that have a signup date, as (date, revenue) pairs in row
    order. *)
Fixpoint signups (df : DataFrame) : list (Timestamp * option Q) :=
  match df with
  | [] => []
  | r :: df' =>
      match Signup_Date r with
      | Some d => (d, Total_Revenue_USD r) :: signups df'
      | None => signups df'
      end
  end.

(** The revenue of one date: the revenues of its records, added in row
    order to [acc]; a record without a revenue adds nothing. *)
Fixpoint revenue_on (d : Timestamp) (rows : list (Timestamp * option Q))
  (acc : Q) : Q :=
  match rows with
  | [] => acc
  | (d', Some q) :: rows' =>
      if d' =? d then revenue_on d rows' (acc + q)%Q
      else revenue_on d rows' acc
  | (_, None) :: rows' => revenue_on d rows' acc
  end.

(** The dates that occur, each once. *)
Fixpoint dates_of (rows : list (Timestamp * option Q)) : list Timestamp :=
  match rows with
  | [] => []
  | (d, _) :: rows' =>
      if existsb (Z.eqb d) (dates_of rows') then dates_of rows'
      else d :: dates_of rows'
  end.

(** The non-empty prefixes of a list, shortest first. *)
Fixpoint prefixes {A : Type} (l : list A) : list (list A) :=
  match l with
  | [] => []
  | x :: l' => [x] :: map (cons x) (prefixes l')
  end.

(** The sum of a prefix, added up from its first value on. *)
Definition total (vs : list Q) : Q :=
  match vs with
  | [] => 0%Q
  | v :: vs' => fold_left Qplus vs' v
  end.

(** Restrict to the rows with a [SignupDate]; sum [TotalRevenueUSD] per
    date; sort the (date, sum) pairs ascending by date; pair each date with
    the sum of the sums up to it.  Written with its own recursions, none
    of them an operation of the code's model. *)
Definition cumulativeRevenueBySignup_spec (df : DataFrame)
  : list (Timestamp * Q) :=
  let rows := signups df in
  let per_date := map (fun d => (d, revenue_on d rows 0%Q)) (dates_of rows) in
  let sorted := insertion_sort (fun p q => fst p <=? fst q) per_date in
  combine (map fst sorted) (map total (prefixes (map snd sorted))).

(* ------------------------------------------------------------------ *)
(** ** Facts about the series operations *)

Lemma In_dropna {A : Type} (a : A) (col : list (option A)) :
  In a (dropna col) <-> In (Some a) col.
Proof.
  induction col as [|[b|] col IH]; simpl.
  - tauto.
  - rewrite IH. split; intros [E|E]; auto; left; congruence.
  - rewrite IH. split; [auto|]. intros [E|E]; [discriminate|auto].
Qed.

Lemma dropna_map_Some {A B : Type} (f : A -> B) (l : list A) :
  dropna (map (fun a => Some (f a)) l) = map f l.
Proof. induction l; simpl; congruence. Qed.

Section Unique.
Context {K : Type} `{Key K}.

Lemma key_eqb_refl (k : K) : key_eqb k k = true.
Proof. now apply key_eqb_eq. Qed.

Lemma key_eqb_neq (a b : K) : key_eqb a b = false <-> a <> b.
Proof.
  rewrite <- key_eqb_eq. destruct (key_eqb a b); split; congruence.
Qed.

Lemma In_unique (x : K) (l : list K) : In x (unique l) <-> In x l.
Proof.
  induction l as [|y l IH]; simpl; [tauto|].
  rewrite filter_In, IH, negb_true_iff, key_eqb_neq.
  destruct (key_eqb x y) eqn:E.
  - apply key_eqb_eq in E. subst. tauto.
  - apply key_eqb_neq in E. split; [tauto|].
    intros [->|Hx]; [congruence|auto].
Qed.

Lemma NoDup_unique (l : list K) : NoDup (unique l).
Proof.
  induction l as [|y l IH]; simpl; constructor.
  - rewrite filter_In, negb_true_iff, key_eqb_neq. tauto.
  - now apply NoDup_filter.
Qed.

(** A column drawn from a part of the rows has no more distinct values. *)
Lemma nunique_incl (col1 col2 : list (option K)) :
  incl col1 col2 -> (nunique col1 <= nunique col2)%nat.
Proof.
  intros Hincl. unfold nunique.
  apply NoDup_incl_length; [apply NoDup_unique|].
  intros x. rewrite !In_unique, !In_dropna. apply Hincl.
Qed.

End Unique.

Section GroupByFacts.
Context {S : Sorter} {R K : Type} `{Key K}.
Variable by_ : R -> option K.

Lemma has_key_true (k : K) (r : R) :
  has_key by_ k r = true <-> by_ r = Some k.
Proof.
  unfold has_key. destruct (by_ r) as [k'|].
  - rewrite key_eqb_eq. split; congruence.
  - split; discriminate.
Qed.

Lemma group_keys_perm (df : list R) :
  Permutation (unique (dropna (map by_ df))) (group_keys by_ df).
Proof. apply sort_perm. Qed.

(** The groups are keyed by the non-null values of the key column. *)
Lemma In_group_keys (k : K) (df : list R) :
  In k (group_keys by_ df) <-> exists r, In r df /\ by_ r = Some k.
Proof.
  rewrite <- (Permutation_in' eq_refl (group_keys_perm df)).
  rewrite In_unique, In_dropna, in_map_iff.
  split; intros [r Hr]; exists r; tauto.
Qed.

Lemma NoDup_group_keys (df : list R) : NoDup (group_keys by_ df).
Proof.
  eapply Permutation_NoDup; [apply group_keys_perm|apply NoDup_unique].
Qed.

Lemma group_keys_sorted (df : list R) :
  sorted_by key_leb (group_keys by_ df).
Proof. apply sort_sorted; [apply key_leb_total|apply key_leb_trans]. Qed.

Lemma group_keys_nil : group_keys by_ [] = [].
Proof. apply Permutation_nil. exact (group_keys_perm []). Qed.

Lemma groupby_nil : groupby by_ [] = [].
Proof. unfold groupby. now rewrite group_keys_nil. Qed.

(** A group holds exactly the rows whose key cell is the group's key. *)
Lemma In_groupby (k : K) (g df : list R) :
  In (k, g) (groupby by_ df) ->
  g = filter (has_key by_ k) df /\ In k (group_keys by_ df).
Proof.
  unfold groupby. rewrite in_map_iff. intros [k' [[= <- <-] Hk]]. auto.
Qed.

Lemma groupby_keys (df : list R) :
  map fst (groupby by_ df) = group_keys by_ df.
Proof. unfold groupby. rewrite map_map. simpl. apply map_id. Qed.

(** A row whose key cell is null is in no group. *)
Lemma null_key_in_no_group (r : R) (df : list R) :
  by_ r = None ->
  forall k g, In (k, g) (groupby by_ df) -> ~ In r g.
Proof.
  intros Hnull k g Hg Hr. apply In_groupby in Hg as [-> _].
  apply filter_In in Hr as [_ Hr]. apply has_key_true in Hr. congruence.
Qed.

End GroupByFacts.

(* ------------------------------------------------------------------ *)
(** ** The filter *)

Lemma isin_true (cell : option string) (values : list string) :
  isin cell values = true <-> exists v, cell = Some v /\ In v values.
Proof.
  unfold isin. destruct cell as [v|].
  - rewrite existsb_exists. split.
    + intros [x [Hx E]]. apply String.eqb_eq in E. subst. eauto.
    + intros [x [[= <-] Hx]]. exists v. split; [auto|apply String.eqb_refl].
  - split; [discriminate|]. intros [v [E _]]. discriminate.
Qed.

Lemma isin_nil (cell : option string) : isin cell [] = false.
Proof. now destruct cell. Qed.

(** C2: the filter keeps exactly the rows whose [Country] is in the
    country selection and whose [Device_Type] is in the device selection;
    an empty selection on either side leaves no row, and a row with a null
    [Country] or a null [Device_Type] is never kept. *)
Theorem filtered_df_keeps_selected
  (df : DataFrame) (countrySet deviceSet : list string) :
  (forall r,
      In r (filtered_df df countrySet deviceSet) <->
      In r df
      /\ (exists c, Country r = Some c /\ In c countrySet)
      /\ (exists d, Device_Type r = Some d /\ In d deviceSet))
  /\ (countrySet = [] \/ deviceSet = [] ->
      filtered_df df countrySet deviceSet = [])
  /\ (forall r, Country r = None \/ Device_Type r = None ->
                ~ In r (filtered_df df countrySet deviceSet)).
Proof.
  unfold filtered_df. split; [|split].
  - intros r. rewrite filter_In, andb_true_iff, !isin_true. tauto.
  - intros Hempty. induction df as [|r df IH]; simpl; [reflexivity|].
    destruct Hempty as [-> | ->]; rewrite isin_nil, ?andb_false_r; simpl;
      apply IH.
  - intros r Hnull Hr. apply filter_In in Hr as [_ Hr].
    apply andb_true_iff in Hr as [Hc Hd].
    apply isin_true in Hc as [c [Hc _]], Hd as [d [Hd _]].
    destruct Hnull; congruence.
Qed.

(** The filter keeps the rows in row order: it commutes with
    concatenation. *)
Lemma filtered_df_app (df1 df2 : DataFrame) (cs ds : list string) :
  filtered_df (df1 ++ df2) cs ds = filtered_df df1 cs ds ++ filtered_df df2 cs ds.
Proof. apply filter_app. Qed.

(* ------------------------------------------------------------------ *)
(** ** Aggregates of the empty view *)

(** C7: on the empty view no aggregate fails: the revenue sum and the user
    count are 0, the daily and weekly active-user series are empty, and the
    mean session duration is the missing value [NaN], not a number. *)
Theorem aggregates_of_empty_view {S : Sorter} :
  total_revenue [] = 0%Q
  /\ total_users [] = 0%nat
  /\ dau [] = []
  /\ wau [] = []
  /\ avg_session_duration [] = None.
Proof.
  repeat split; unfold dau, wau, groupby_nunique; now rewrite groupby_nil.
Qed.

(** The segment sums and the ranking of the empty view are empty too. *)
Lemma segments_of_empty_view {S : Sorter} :
  rev_device [] = [] /\ rev_tier [] = [] /\ rev_mode [] = [] /\ top_10 [] = [].
Proof.
  unfold rev_device, rev_tier, rev_mode, groupby_sum, top_10,
    sort_values_Total_Revenue_USD.
  rewrite !groupby_nil. simpl.
  rewrite (Permutation_nil (sort_perm Row revenue_desc_leb [])).
  repeat split.
Qed.

(* ------------------------------------------------------------------ *)
(** ** Active users per bucket *)

Lemma groupby_nunique_le {S : Sorter} {K : Type} `{Key K}
  (by_ : Row -> option K) (view : DataFrame) :
  Forall (fun b => (snd b <= total_users view)%nat)
    (groupby_nunique by_ User_ID view).
Proof.
  apply Forall_forall. intros [k n] Hb.
  unfold groupby_nunique in Hb. apply in_map_iff in Hb as [[k' g] [E Hg]].
  simpl in E. injection E as -> <-.
  apply In_groupby in Hg as [-> _]. simpl.
  apply nunique_incl. intros u Hu.
  apply in_map_iff in Hu as [r [<- Hr]]. apply in_map.
  now apply filter_In in Hr.
Qed.

(** C9: no bucket of the daily or of the weekly active-user series counts
    more users than the view has distinct non-null [User_ID]s. *)
Theorem active_users_bounded_by_total_users {S : Sorter} (D : DataFrame) :
  Forall (fun b => (snd b <= total_users D)%nat) (dau D)
  /\ Forall (fun b => (snd b <= total_users D)%nat) (wau D).
Proof. split; apply groupby_nunique_le. Qed.

(* ------------------------------------------------------------------ *)
(** ** Runs of the script *)

Section Runs.
Context {S : Sorter}.
Variable parse_datetime : string -> option Timestamp.
Variable today : Timestamp.

Lemma load_data_empty (csv : list CsvRow) :
  empty (load_data parse_datetime today csv) = true <-> csv = [].
Proof. destruct csv; simpl; split; congruence. Qed.

(** A run on a file with at least one row reaches the last line: the page
    top, the record count, then the dashboard over the loaded frame. *)
Lemma app_nonempty (c : CsvRow) (csv : list CsvRow) (ui : Widgets) :
  let df := load_data parse_datetime today (c :: csv) in
  app parse_datetime today (inr (c :: csv)) ui
  = (page_top ++ Success (List.length df) :: fst (dashboard df ui),
     snd (dashboard df ui)).
Proof. reflexivity. Qed.

(** C10: when the loaded frame has no rows the run ends at [st.stop()],
    and when the file cannot be read it ends on the exception: either way
    only the page top has been emitted, and no filter, aggregate or chart. *)
Theorem app_halts_on_empty_dataset (csv : list CsvRow) (ui : Widgets)
  (Hempty : empty (load_data parse_datetime today csv) = true) :
  app parse_datetime today (inr csv) ui = (page_top, Stopped)
  /\ forall e, app parse_datetime today (inl e) ui = (page_top, Raised e).
Proof.
  apply load_data_empty in Hempty. subst csv. split; reflexivity.
Qed.

(** C3: the Monthly Active Users output of a run, both the chart shown and
    the frame bound to [monthly_active_users], is computed from the whole
    loaded frame: two runs on the same file with any two states of the
    country and device widgets give the same output. *)
Theorem monthly_active_users_ignores_filters
  (data_csv : Exn + list CsvRow) (ui1 ui2 : Widgets) :
  monthly_charts (events (app parse_datetime today data_csv ui1))
  = monthly_charts (events (app parse_datetime today data_csv ui2))
  /\ option_map g_monthly_active_users
       (globals (app parse_datetime today data_csv ui1))
     = option_map g_monthly_active_users
         (globals (app parse_datetime today data_csv ui2))
  /\ monthly_charts (events (app parse_datetime today data_csv ui1))
     = monthly_of_file parse_datetime today data_csv.
Proof. destruct data_csv as [e|[|c csv]]; repeat split. Qed.

(** The same holds of the cumulative revenue chart. *)
Lemma daily_revenue_ignores_filters
  (data_csv : Exn + list CsvRow) (ui1 ui2 : Widgets) :
  revenue_charts (events (app parse_datetime today data_csv ui1))
  = revenue_charts (events (app parse_datetime today data_csv ui2))
  /\ option_map g_daily_revenue
       (globals (app parse_datetime today data_csv ui1))
     = option_map g_daily_revenue
         (globals (app parse_datetime today data_csv ui2)).
Proof. destruct data_csv as [e|[|c csv]]; repeat split. Qed.

(** What a completed run binds to [daily_revenue] and shows as the
    cumulative revenue chart: [daily_revenue] of the loaded frame. *)
Lemma app_daily_revenue (c : CsvRow) (csv : list CsvRow) (ui : Widgets) :
  let run := app parse_datetime today (inr (c :: csv)) ui in
  let df := load_data parse_datetime today (c :: csv) in
  revenue_charts (events run) = [daily_revenue df]
  /\ option_map g_daily_revenue (globals run) = Some (daily_revenue df).
Proof. split; reflexivity. Qed.

End Runs.

(* ------------------------------------------------------------------ *)
(** ** Revenue by segment *)

Lemma revenue_by_segment_groupby_sum {S : Sorter} (f : SegmentField)
  (view : DataFrame) :
  revenue_by_segment f view
  = groupby_sum (segment_column f) Total_Revenue_USD view.
Proof. now destruct f. Qed.

Section DropNullKeys.
Context {S : Sorter} {R K : Type} `{Key K}.
Variable by_ : R -> option K.

Lemma dropna_filter_notna (df : list R) :
  dropna (map by_ (filter (fun r => notna (by_ r)) df)) = dropna (map by_ df).
Proof.
  induction df as [|r df IH]; simpl; [reflexivity|].
  destruct (by_ r) eqn:E; simpl; rewrite ?E; congruence.
Qed.

Lemma filter_has_key_notna (k : K) (df : list R) :
  filter (has_key by_ k) (filter (fun r => notna (by_ r)) df)
  = filter (has_key by_ k) df.
Proof.
  induction df as [|r df IH]; simpl; [reflexivity|].
  unfold has_key at 2. destruct (by_ r) eqn:E; simpl.
  - unfold has_key at 1. rewrite E. now rewrite IH.
  - exact IH.
Qed.

(** Grouping sees only the rows whose key cell is not null. *)
Lemma groupby_drops_null_keys (df : list R) :
  groupby by_ df = groupby by_ (filter (fun r => notna (by_ r)) df).
Proof.
  unfold groupby, group_keys. rewrite dropna_filter_notna.
  apply map_ext. intros k. now rewrite filter_has_key_notna.
Qed.

End DropNullKeys.

(** C6, as the code has it: the output has one entry per distinct non-null
    value of the segment column, in ascending order of that value, holding
    the sum of [Total_Revenue_USD] over the view's rows with that value;
    the rows whose segment value is null are dropped: the output is the
    one of the view without them. *)
Theorem revenue_by_segment_groups {S : Sorter} (f : SegmentField)
  (view : DataFrame) :
  let out := revenue_by_segment f view in
  NoDup (map fst out)
  /\ sorted_by String.leb (map fst out)
  /\ (forall v, In v (map fst out) <->
                exists r, In r view /\ segment_column f r = Some v)
  /\ Forall (fun g =>
       snd g = series_sum (map Total_Revenue_USD
                 (filter (has_key (segment_column f) (fst g)) view))) out
  /\ out = revenue_by_segment f
             (filter (fun r => notna (segment_column f r)) view).
Proof.
  cbv zeta. rewrite !revenue_by_segment_groupby_sum. unfold groupby_sum.
  rewrite map_map. simpl. rewrite groupby_keys.
  split; [apply NoDup_group_keys|].
  split; [exact (group_keys_sorted (segment_column f) view)|].
  split; [intros v; apply In_group_keys|].
  split.
  - apply Forall_forall. intros [v q] Hg.
    apply in_map_iff in Hg as [[v' g] [[= <- <-] Hg]].
    apply In_groupby in Hg as [-> _]. reflexivity.
  - now rewrite <- groupby_drops_null_keys.
Qed.

(** C6 fails as stated: in the sample frame the record of user B has no
    [Subscription_Tier]; the tier chart has the groups of the two other
    records only, and B's row is in no group. *)
Lemma null_segment_rows_dropped_example :
  exists r,
    In r sample_df
    /\ Subscription_Tier r = None
    /\ Total_Revenue_USD r = Some (inject_Z 20)
    /\ rev_tier (S := stable_sorter) sample_df
       = [("Free", inject_Z 5); ("Gold", inject_Z 10)]
    /\ forall g, In g (groupby (S := stable_sorter) Subscription_Tier sample_df)
                 -> ~ In r (snd g).
Proof.
  exists sample_row_B.
  split; [right; left; reflexivity|].
  split; [reflexivity|]. split; [reflexivity|]. split; [reflexivity|].
  intros [k g] Hg.
  exact (null_key_in_no_group Subscription_Tier sample_row_B sample_df
           eq_refl k g Hg).
Qed.

(* ------------------------------------------------------------------ *)
(** ** High-value users *)

Lemma Qle_bool_total (a b : Q) : Qle_bool a b = true \/ Qle_bool b a = true.
Proof.
  rewrite !Qle_bool_iff.
  destruct (Qlt_le_dec a b) as [Hlt|Hle]; [left; now apply Qlt_le_weak|auto].
Qed.

Lemma revenue_desc_leb_total (r1 r2 : Row) :
  revenue_desc_leb r1 r2 = true \/ revenue_desc_leb r2 r1 = true.
Proof.
  unfold revenue_desc_leb.
  destruct (Total_Revenue_USD r1), (Total_Revenue_USD r2); auto.
  apply Qle_bool_total.
Qed.

Lemma revenue_desc_leb_trans (r1 r2 r3 : Row) :
  revenue_desc_leb r1 r2 = true -> revenue_desc_leb r2 r3 = true ->
  revenue_desc_leb r1 r3 = true.
Proof.
  unfold revenue_desc_leb.
  destruct (Total_Revenue_USD r1), (Total_Revenue_USD r2),
    (Total_Revenue_USD r3); auto; try discriminate.
  rewrite !Qle_bool_iff. intros H12 H23. now apply Qle_trans with q0.
Qed.

Lemma StronglySorted_app {A : Type} (R : A -> A -> Prop) (l1 l2 : list A) :
  StronglySorted R l1 -> StronglySorted R l2 ->
  (forall x y, In x l1 -> In y l2 -> R x y) ->
  StronglySorted R (l1 ++ l2).
Proof.
  intros H1 H2 H12. induction l1 as [|a l1 IH]; simpl; [exact H2|].
  apply StronglySorted_inv in H1 as [H1 Ha]. constructor.
  - apply IH; [exact H1|]. intros x y Hx. apply H12. now right.
  - apply Forall_app. split; [exact Ha|].
    apply Forall_forall. intros y Hy. apply H12; [now left|exact Hy].
Qed.

Lemma StronglySorted_firstn {A : Type} (R : A -> A -> Prop) (n : nat)
  (l : list A) :
  StronglySorted R l -> StronglySorted R (firstn n l).
Proof.
  revert l. induction n as [|n IH]; intros [|a l] Hs; simpl;
    try constructor.
  - apply IH. now apply StronglySorted_inv in Hs.
  - apply StronglySorted_inv in Hs as [_ Ha].
    rewrite Forall_forall in *. intros x Hx. apply Ha.
    rewrite <- (firstn_skipn n l). apply in_or_app. now left.
Qed.

(** Rows that pairwise compare are sorted in any order. *)
Lemma StronglySorted_all_related {A : Type} (R : A -> A -> Prop)
  (l : list A) :
  (forall x y, In x l -> In y l -> R x y) -> StronglySorted R l.
Proof.
  induction l as [|a l IH]; intros Hall; constructor.
  - apply IH. intros x y Hx Hy. apply Hall; now right.
  - apply Forall_forall. intros y Hy. apply Hall; [now left|now right].
Qed.

(** Splitting a frame by a test and its complement keeps all its rows. *)
Lemma filter_split_perm {A : Type} (keep other : A -> bool) (rows : list A) :
  (forall a, other a = negb (keep a)) ->
  Permutation rows (filter keep rows ++ filter other rows).
Proof.
  intros Hother. induction rows as [|r rows IH]; simpl; [constructor|].
  rewrite Hother. destruct (keep r); simpl.
  - now constructor.
  - now apply Permutation_cons_app.
Qed.

Section TopUsers.
Context {S : Sorter}.

Lemma sort_values_perm (view : DataFrame) :
  Permutation view (sort_values_Total_Revenue_USD view).
Proof.
  unfold sort_values_Total_Revenue_USD.
  rewrite <- sort_perm. now apply filter_split_perm.
Qed.

Lemma sort_values_sorted (view : DataFrame) :
  sorted_by revenue_desc_leb (sort_values_Total_Revenue_USD view).
Proof.
  unfold sort_values_Total_Revenue_USD, sorted_by.
  apply StronglySorted_app.
  - apply sort_sorted;
      [apply revenue_desc_leb_total|apply revenue_desc_leb_trans].
  - apply StronglySorted_all_related. intros x y Hx Hy.
    apply filter_In in Hx as [_ Hx], Hy as [_ Hy].
    unfold revenue_desc_leb.
    destruct (Total_Revenue_USD x), (Total_Revenue_USD y);
      simpl in *; congruence.
  - intros x y Hx Hy.
    apply (Permutation_in _ (Permutation_sym (sort_perm _ _ _))) in Hx.
    apply filter_In in Hx as [_ Hx], Hy as [_ Hy].
    unfold revenue_desc_leb.
    destruct (Total_Revenue_USD x), (Total_Revenue_USD y);
      simpl in *; congruence.
Qed.

(** The first [n] rows of the sorted view are [min n |view|] rows of the
    view, in descending order of [Total_Revenue_USD] (rows without a
    revenue last), whatever the algorithm does with rows of equal
    revenue. *)
Lemma head_of_sorted_view (view : DataFrame) (n : nat) :
  let out := head n (sort_values_Total_Revenue_USD view) in
  List.length out = Nat.min n (List.length view)
  /\ sorted_by revenue_desc_leb out
  /\ (exists rest, Permutation view (out ++ rest)).
Proof.
  cbv zeta. unfold head. split; [|split].
  - rewrite length_firstn.
    now rewrite <- (Permutation_length (sort_values_perm view)).
  - apply StronglySorted_firstn, sort_values_sorted.
  - exists (skipn n (sort_values_Total_Revenue_USD view)).
    rewrite firstn_skipn. apply sort_values_perm.
Qed.

End TopUsers.

(* ------------------------------------------------------------------ *)
(** ** Cumulative revenue by signup date *)

Lemma cumsum_from_prefixes {K : Type} (s : list (K * Q)) (acc : Q) :
  cumsum_from acc s
  = combine (map fst s)
      (map (fun p => fold_left Qplus p acc) (prefixes (map snd s))).
Proof.
  revert acc. induction s as [|[k v] s IH]; intros acc; simpl.
  - reflexivity.
  - rewrite IH, map_map. reflexivity.
Qed.

Lemma cumsum_prefixes {K : Type} (s : list (K * Q)) :
  cumsum s = combine (map fst s) (map total (prefixes (map snd s))).
Proof.
  destruct s as [|[k v] s]; simpl; [reflexivity|].
  rewrite cumsum_from_prefixes, map_map. reflexivity.
Qed.

Section SortedByKey.
Context {K V : Type} `{Key K}.

Lemma fst_leb_total (p q : K * V) : fst_leb p q = true \/ fst_leb q p = true.
Proof. apply key_leb_total. Qed.

Lemma fst_leb_trans (p q r : K * V) :
  fst_leb p q = true -> fst_leb q r = true -> fst_leb p r = true.
Proof. apply key_leb_trans. Qed.

(** A series with distinct keys has one sorted arrangement. *)
Lemma sorted_by_key_unique (l1 : list (K * V)) :
  forall l2,
    Permutation l1 l2 -> sorted_by fst_leb l1 -> sorted_by fst_leb l2 ->
    NoDup (map fst l1) -> l1 = l2.
Proof.
  unfold sorted_by.
  induction l1 as [|a l1 IH]; intros l2 Hperm Hs1 Hs2 Hnd.
  - now apply Permutation_nil in Hperm.
  - destruct l2 as [|b l2];
      [now apply Permutation_sym, Permutation_nil in Hperm|].
    apply StronglySorted_inv in Hs1 as [Hs1 Ha].
    apply StronglySorted_inv in Hs2 as [Hs2 Hb].
    simpl in Hnd. apply NoDup_cons_iff in Hnd as [Hfresh Hnd].
    assert (Hab : a = b).
    { assert (Hin_a : In a (b :: l2))
        by (apply (Permutation_in _ Hperm); now left).
      assert (Hin_b : In b (a :: l1))
        by (apply (Permutation_in _ (Permutation_sym Hperm)); now left).
      destruct Hin_a as [E|Hin_a]; [now symmetry|].
      destruct Hin_b as [E|Hin_b]; [exact E|].
      rewrite Forall_forall in Ha, Hb.
      pose proof (key_leb_antisym _ _ (Ha b Hin_b) (Hb a Hin_a)) as E.
      exfalso. apply Hfresh. rewrite E. now apply in_map. }
    subst b. f_equal. apply IH; auto.
    now apply Permutation_cons_inv in Hperm.
Qed.

End SortedByKey.

Section CumulativeRevenue.
Context {S : Sorter}.

Lemma revenue_on_group (d : Timestamp) (df : DataFrame) (acc : Q) :
  revenue_on d (signups df) acc
  = fold_left Qplus
      (dropna (map Total_Revenue_USD
                 (filter (has_key Signup_Date d) (revenue_by_signup df))))
      acc.
Proof.
  unfold revenue_by_signup. revert acc.
  induction df as [|r df IH]; intros acc; [reflexivity|].
  cbn [signups filter].
  destruct (Signup_Date r) as [d'|] eqn:Ed; cbn [notna]; [|apply IH].
  cbn [filter]. unfold has_key at 1. rewrite Ed.
  change (key_eqb d' d) with (d' =? d).
  cbn [revenue_on].
  destruct (Total_Revenue_USD r) as [q|] eqn:Eq; destruct (d' =? d);
    cbn [map dropna fold_left]; rewrite ?Eq; cbn [dropna fold_left];
    apply IH.
Qed.

Lemma In_dates_of (d : Timestamp) (rows : list (Timestamp * option Q)) :
  In d (dates_of rows) <-> In d (map fst rows).
Proof.
  induction rows as [|[d' v] rows IH]; simpl; [tauto|].
  destruct (existsb (Z.eqb d') (dates_of rows)) eqn:E.
  - rewrite IH. split; [auto|]. intros [<-|H]; [|exact H].
    apply existsb_exists in E as [x [Hx Ex]]. apply Z.eqb_eq in Ex.
    subst x. now apply IH.
  - simpl. now rewrite IH.
Qed.

Lemma NoDup_dates_of (rows : list (Timestamp * option Q)) :
  NoDup (dates_of rows).
Proof.
  induction rows as [|[d v] rows IH]; simpl; [constructor|].
  destruct (existsb (Z.eqb d) (dates_of rows)) eqn:E; [exact IH|].
  constructor; [|exact IH]. intros Hd.
  assert (Ex : existsb (Z.eqb d) (dates_of rows) = true)
    by (apply existsb_exists; exists d; split; [exact Hd|apply Z.eqb_refl]).
  congruence.
Qed.

Lemma In_signups (d : Timestamp) (df : DataFrame) :
  In d (map fst (signups df)) <-> exists r, In r df /\ Signup_Date r = Some d.
Proof.
  induction df as [|r df IH]; simpl.
  - split; [tauto|]. intros [r [[] _]].
  - destruct (Signup_Date r) as [d'|] eqn:Ed; simpl; rewrite IH; split.
    + intros [<-|[r' [Hr' E]]]; [exists r; auto|exists r'; auto].
    + intros [r' [[<-|Hr'] E]]; [left; congruence|right; eauto].
    + intros [r' [Hr' E]]. exists r'; auto.
    + intros [r' [[<-|Hr'] E]]; [congruence|eauto].
Qed.

Lemma dates_of_group_keys (df : DataFrame) :
  Permutation (group_keys Signup_Date (revenue_by_signup df))
    (dates_of (signups df)).
Proof.
  apply NoDup_Permutation;
    [apply NoDup_group_keys|apply NoDup_dates_of|].
  intros d. rewrite In_group_keys, In_dates_of, In_signups.
  unfold revenue_by_signup. split.
  - intros [r [Hr E]]. apply filter_In in Hr as [Hr _]. eauto.
  - intros [r [Hr E]]. exists r. split; [|exact E].
    apply filter_In. split; [exact Hr|]. now rewrite E.
Qed.

(** The refinement: the code's series is the specification's. *)
Lemma daily_revenue_is_spec (df : DataFrame) :
  daily_revenue df = cumulativeRevenueBySignup_spec df.
Proof.
  unfold daily_revenue, cumulativeRevenueBySignup_spec. cbv zeta.
  rewrite cumsum_prefixes.
  set (F := fun d : Timestamp => (d, revenue_on d (signups df) 0%Q)).
  assert (Hsum : groupby_sum Signup_Date Total_Revenue_USD
                   (revenue_by_signup df)
                 = map F (group_keys Signup_Date (revenue_by_signup df))).
  { unfold groupby_sum, groupby. rewrite map_map. apply map_ext.
    intros d. unfold F. cbn [fst snd]. now rewrite revenue_on_group. }
  rewrite Hsum.
  assert (E : sort_index (map F (group_keys Signup_Date (revenue_by_signup df)))
              = insertion_sort (fun p q => fst p <=? fst q)
                  (map F (dates_of (signups df)))).
  { apply sorted_by_key_unique.
    - unfold sort_index. rewrite <- sort_perm.
      rewrite <- insertion_sort_perm.
      apply Permutation_map, dates_of_group_keys.
    - apply (sort_sorted _ fst_leb); [apply fst_leb_total|apply fst_leb_trans].
    - refine (insertion_sort_sorted (@fst_leb Timestamp Q _) fst_leb
                (fun _ _ E => E) _ fst_leb_trans _).
      intros x y Hxy. destruct (fst_leb_total x y); congruence.
    - unfold sort_index.
      eapply Permutation_NoDup;
        [apply Permutation_map, sort_perm|].
      rewrite map_map. simpl. rewrite map_id. apply NoDup_group_keys. }
  now rewrite E.
Qed.

End CumulativeRevenue.

(** C4: [daily_revenue] is the series of the specification (rows with a
    [SignupDate], revenue summed per date, sorted ascending by date,
    running sum), and a run computes and shows it from the whole loaded
    frame, whatever the state of the filter widgets. *)
Theorem cumulative_revenue_by_signup {S : Sorter}
  (parse_datetime : string -> option Timestamp) (today : Timestamp) :
  (forall df, daily_revenue df = cumulativeRevenueBySignup_spec df)
  /\ (forall c csv ui,
        let run := app parse_datetime today (inr (c :: csv)) ui in
        let df := load_data parse_datetime today (c :: csv) in
        revenue_charts (events run) = [cumulativeRevenueBySignup_spec df]
        /\ option_map g_daily_revenue (globals run)
           = Some (cumulativeRevenueBySignup_spec df)).
Proof.
  split; [apply daily_revenue_is_spec|].
  intros c csv ui run df. rewrite <- daily_revenue_is_spec.
  apply app_daily_revenue.
Qed.

(* ------------------------------------------------------------------ *)
(** ** The statements at the sample data *)

Lemma filtered_df_keeps_selected_witness :
  filtered_df sample_df [] ["Mobile"] = []
  /\ ~ In sample_row_B (filtered_df sample_df ["US"] ["Mobile"]).
Proof.
  pose proof (filtered_df_keeps_selected sample_df [] ["Mobile"]) as H1.
  pose proof (filtered_df_keeps_selected sample_df ["US"] ["Mobile"]) as H2.
  split.
  - apply (proj1 (proj2 H1)). left. reflexivity.
  - intros Hin. apply (proj1 (proj1 H2 sample_row_B)) in Hin.
    destruct Hin as [_ [_ [d [Hd Hin]]]].
    injection Hd as <-. destruct Hin as [E|[]]. discriminate E.
Defined.

Lemma app_halts_on_empty_dataset_witness :
  empty (load_data parse_dmy sample_today []) = true
  /\ app (S := stable_sorter) parse_dmy sample_today (inr [])
       (mkWidgets (fun choices => choices) (fun choices => choices))
     = (page_top, Stopped).
Proof.
  split; [reflexivity|].
  apply (app_halts_on_empty_dataset (S := stable_sorter)
           parse_dmy sample_today []
           (mkWidgets (fun choices => choices) (fun choices => choices))
           eq_refl).
Defined.

(** The three-record scenario: the view of country US on both devices has
    revenue 30 and 2 users; by device, the whole frame has 20 on Desktop
    and 15 on Mobile. *)
Example scenario_three_records :
  let view := filtered_df sample_df ["US"] ["Mobile"; "Desktop"] in
  total_revenue view = inject_Z 30
  /\ total_users view = 2%nat
  /\ rev_device (S := stable_sorter) sample_df
     = [("Desktop", inject_Z 20); ("Mobile", inject_Z 15)].
Proof. repeat split. Qed.

(** A first run, with every choice selected, on the sample file. *)
Example scenario_first_run :
  let run := app (S := stable_sorter) parse_dmy sample_today (inr sample_csv)
               (mkWidgets (fun choices => choices) (fun choices => choices)) in
  monthly_charts (events run) = [[("2024-06", 1%nat)]]
  /\ option_map (fun g => map Username (g_top_10 g)) (globals run)
     = Some [Some "B"; Some "A"; Some "A"].
Proof. repeat split. Qed.

(** The calendar at some known dates. *)
Example days_from_civil_epoch : days_from_civil (mkDate 1970 1 1) = 0.
Proof. reflexivity. Qed.

Example civil_from_days_leap :
  civil_from_days (days_from_civil (mkDate 2024 2 29)) = mkDate 2024 2 29.
Proof. reflexivity. Qed.

(** 2024-01-01 was a Monday, 2024-01-07 the first Sunday of the year. *)
Example strftime_week_examples :
  strftime_Y_U (timestamp_of_date (mkDate 2024 1 1)) = "2024-00"
  /\ strftime_Y_U (timestamp_of_date (mkDate 2024 1 7)) = "2024-01"
  /\ strftime_Y_U (timestamp_of_date (mkDate 2023 12 31)) = "2023-53"
  /\ period_str (period_M (timestamp_of_date (mkDate 2024 3 9))) = "2024-03".
Proof. repeat split; vm_compute; reflexivity. Qed.

(* ------------------------------------------------------------------ *)
(** ** Groups partition the rows that have a key *)

Lemma filter_disjoint_perm {A : Type} (p q : A -> bool) (rows : list A) :
  (forall a, p a = true -> q a = false) ->
  Permutation (filter p rows ++ filter q rows)
    (filter (fun a => p a || q a) rows).
Proof.
  intros Hpq. induction rows as [|r rows IH]; simpl; [constructor|].
  destruct (p r) eqn:Ep; simpl.
  - rewrite (Hpq r Ep). apply perm_skip. exact IH.
  - destruct (q r); [|exact IH].
    apply Permutation_sym. apply Permutation_cons_app.
    apply Permutation_sym. exact IH.
Qed.

Section Partition.
Context {S : Sorter} {R K : Type} `{Key K}.
Variable by_ : R -> option K.

Lemma groups_of_distinct_keys (ks : list K) (df : list R) :
  NoDup ks ->
  Permutation (List.concat (map (fun k => filter (has_key by_ k) df) ks))
    (filter (has_key_among by_ ks) df).
Proof.
  induction ks as [|k ks IH]; intros Hnd; simpl.
  - induction df; simpl; auto.
  - apply NoDup_cons_iff in Hnd as [Hk Hnd].
    rewrite (IH Hnd). apply filter_disjoint_perm.
    intros r Hr. apply has_key_true in Hr.
    destruct (has_key_among by_ ks r) eqn:E; [|reflexivity].
    apply existsb_exists in E as [k' [Hk' E]].
    apply has_key_true in E. congruence.
Qed.

Lemma has_key_among_group_keys (df : list R) (r : R) :
  In r df -> has_key_among by_ (group_keys by_ df) r = notna (by_ r).
Proof.
  intros Hr. unfold has_key_among. destruct (by_ r) as [k|] eqn:E; simpl.
  - apply existsb_exists. exists k. split.
    + apply In_group_keys. eauto.
    + now apply has_key_true.
  - destruct (existsb _ _) eqn:Ex; [|reflexivity].
    apply existsb_exists in Ex as [k [_ Hk]].
    apply has_key_true in Hk. congruence.
Qed.

Lemma groupby_groups_perm (df : list R) :
  Permutation (List.concat (map snd (groupby by_ df)))
    (filter (fun r => notna (by_ r)) df).
Proof.
  unfold groupby. rewrite map_map. simpl.
  rewrite (groups_of_distinct_keys _ _ (NoDup_group_keys by_ df)).
  rewrite (filter_ext_in _ _ _ (has_key_among_group_keys df)).
  reflexivity.
Qed.

(** X1: the groups of [df.groupby(by)], one after the other, hold the rows of
    the frame whose key cell is not null, each of them once. *)
Theorem groupby_partitions_keyed_rows (df : list R) :
  Permutation (List.concat (map snd (groupby by_ df)))
    (filter (fun r => notna (by_ r)) df).
Proof. apply groupby_groups_perm. Qed.

End Partition.

(* ------------------------------------------------------------------ *)
(** ** The dates of the revenue curve *)

Lemma map_fst_cumsum_from {K : Type} (s : list (K * Q)) (acc : Q) :
  map fst (cumsum_from acc s) = map fst s.
Proof.
  revert acc. induction s as [|[k v] s IH]; intros acc; simpl; [|rewrite IH];
    reflexivity.
Qed.

Lemma map_fst_cumsum {K : Type} (s : list (K * Q)) :
  map fst (cumsum s) = map fst s.
Proof.
  destruct s as [|[k v] s]; simpl; [|rewrite map_fst_cumsum_from];
    reflexivity.
Qed.

Lemma sorted_by_map_fst {K V : Type} `{Key K} (s : list (K * V)) :
  sorted_by fst_leb s -> sorted_by key_leb (map fst s).
Proof.
  unfold sorted_by. induction 1 as [|p s Hs IH Hp]; simpl; constructor.
  - exact IH.
  - apply Forall_map. exact Hp.
Qed.

Section RevenueCurve.
Context {S : Sorter}.

(** X4: the curve has one point per distinct signup date of the frame, the
    dates in ascending order. *)
Theorem daily_revenue_dates (df : DataFrame) :
  let dates := map fst (daily_revenue df) in
  NoDup dates
  /\ sorted_by Z.leb dates
  /\ (forall d, In d dates <-> exists r, In r df /\ Signup_Date r = Some d).
Proof.
  cbv zeta. unfold daily_revenue. rewrite map_fst_cumsum.
  set (sums := groupby_sum Signup_Date Total_Revenue_USD (revenue_by_signup df)).
  assert (Hkeys : map fst sums = group_keys Signup_Date (revenue_by_signup df)).
  { unfold sums, groupby_sum. rewrite map_map. simpl. apply groupby_keys. }
  assert (Hperm : Permutation (group_keys Signup_Date (revenue_by_signup df))
                    (map fst (sort_index sums))).
  { rewrite <- Hkeys. apply Permutation_map, sort_perm. }
  split; [|split].
  - eapply Permutation_NoDup; [exact Hperm|apply NoDup_group_keys].
  - refine (sorted_by_map_fst (K := Timestamp) (sort_index sums) _).
    apply sort_sorted; [apply fst_leb_total|apply fst_leb_trans].
  - intros d. rewrite <- (Permutation_in' eq_refl Hperm), In_group_keys.
    unfold revenue_by_signup. split.
    + intros [r [Hr E]]. apply filter_In in Hr as [Hr _]. eauto.
    + intros [r [Hr E]]. exists r. split; [|exact E].
      apply filter_In. split; [exact Hr|]. now rewrite E.
Qed.

End RevenueCurve.

(* ------------------------------------------------------------------ *)
(** ** The derived columns of [load_data] *)

Ltac split_ifs :=
  repeat match goal with
    | |- context [if ?b then _ else _] =>
        let E := fresh "E" in
        destruct b eqn:E;
        try apply Z.leb_le in E; try apply Z.leb_gt in E;
        try apply Z.ltb_lt in E; try apply Z.ltb_ge in E
    end.

(** The day number of the date of a day number is that day number. *)
Lemma days_from_civil_of_days (n : Z) :
  days_from_civil (civil_from_days n) = n.
Proof.
  unfold days_from_civil, civil_from_days. cbn [year month day].
  split_ifs; Z.div_mod_to_equations; lia.
Qed.

Lemma digit_char_not_N (k : Z) :
  ascii_of_nat (48 + Z.to_nat (k mod 10)) <> "N"%char.
Proof.
  intros E. apply (f_equal nat_of_ascii) in E.
  pose proof (Z.mod_pos_bound k 10 eq_refl) as Hk.
  rewrite nat_ascii_embedding in E by lia.
  change (nat_of_ascii "N") with 78%nat in E. lia.
Qed.

Lemma zero_pad_4_head (n : Z) :
  exists k rest,
    zero_pad 4 n = String (ascii_of_nat (48 + Z.to_nat (k mod 10))) rest.
Proof. eexists. eexists. reflexivity. Qed.

Lemma period_str_not_NaT (p : Period) : period_str p <> "NaT".
Proof.
  unfold period_str.
  destruct (zero_pad_4_head (p_year p)) as [k [rest ->]].
  cbn [String.append]. intros E. injection E as E _.
  exact (digit_char_not_N _ E).
Qed.

Section DerivedColumns.
Variable parse_datetime : string -> option Timestamp.
Variable today : Timestamp.

Lemma load_row_buckets (c : CsvRow) (d : Date) :
  Login_Date (load_row parse_datetime today c) = Some d ->
  Week (load_row parse_datetime today c) = Some (week_of_date d)
  /\ Month (load_row parse_datetime today c) = Some (month_of_date d).
Proof.
  simpl. destruct (to_datetime parse_datetime (csv_Last_Login c)) as [t|];
    simpl; [|discriminate].
  intros [= <-]. split; [|reflexivity].
  unfold strftime_Y_U, week_of_date, date_of.
  now rewrite days_from_civil_of_days.
Qed.

(** The derived cells of a loaded row are null exactly when its
    [Last_Login] is. *)
Lemma load_row_null_cells (c : CsvRow) :
  let r := load_row parse_datetime today c in
  (Login_Date r = None <-> Last_Login r = None)
  /\ (Week r = None <-> Last_Login r = None)
  /\ (Month r = None <-> Last_Login r = None)
  /\ (Days_Since_Last_Login r = None <-> Last_Login r = None).
Proof.
  simpl. destruct (to_datetime parse_datetime (csv_Last_Login c)) as [t|];
    simpl; repeat split; congruence.
Qed.

Lemma loaded_bucket_keys (csv : list CsvRow) (r : Row) :
  In r (load_data parse_datetime today csv) ->
  notna (Login_Date r) = notna (Last_Login r)
  /\ notna (Week r) = notna (Last_Login r)
  /\ notna (Month r) = notna (Last_Login r).
Proof.
  intros Hr. apply in_map_iff in Hr as [c [<- _]]. simpl.
  destruct (to_datetime parse_datetime (csv_Last_Login c)); repeat split.
Qed.

(** X6: every row of the loaded frame: [Login_Date], [Week], [Month] and
    [Days_Since_Last_Login] are null exactly when [Last_Login] is, and
    the login date fixes the week and the month. *)
Theorem load_data_derived_columns (csv : list CsvRow) :
  Forall (fun r =>
            (Login_Date r = None <-> Last_Login r = None)
            /\ (Week r = None <-> Last_Login r = None)
            /\ (Month r = None <-> Last_Login r = None)
            /\ (Days_Since_Last_Login r = None <-> Last_Login r = None)
            /\ (forall d, Login_Date r = Some d ->
                          Week r = Some (week_of_date d)
                          /\ Month r = Some (month_of_date d)))
    (load_data parse_datetime today csv).
Proof.
  apply Forall_forall. intros r Hr.
  apply in_map_iff in Hr as [c [<- _]].
  destruct (load_row_null_cells c) as [H1 [H2 [H3 H4]]].
  repeat (split; [assumption|]).
  intros d. apply load_row_buckets.
Qed.

(** X7: the Monthly Active Users series has a bucket for a month exactly
    when some record of the file has a [Last_Login] that parses to an
    instant of that month; a record whose [Last_Login] does not parse
    adds no bucket, and no bucket is named ["NaT"]. *)
Theorem monthly_buckets_of_parsed_logins {S : Sorter} (csv : list CsvRow) :
  let months :=
    map fst (monthly_active_users (load_data parse_datetime today csv)) in
  (forall k, In k months <->
             exists c t, In c csv
                         /\ to_datetime parse_datetime (csv_Last_Login c)
                            = Some t
                         /\ k = period_str (period_M t))
  /\ ~ In "NaT" months.
Proof.
  cbv zeta. unfold monthly_active_users, groupby_nunique.
  rewrite map_map. cbn [fst]. rewrite groupby_keys.
  assert (Hk : forall k,
             In k (group_keys Month (load_data parse_datetime today csv)) <->
             exists c t, In c csv
                         /\ to_datetime parse_datetime (csv_Last_Login c)
                            = Some t
                         /\ k = period_str (period_M t)).
  { intros k. rewrite In_group_keys. split.
    - intros [r [Hr E]]. apply in_map_iff in Hr as [c [<- Hc]].
      simpl in E.
      destruct (to_datetime parse_datetime (csv_Last_Login c)) as [t|] eqn:Et;
        [|discriminate].
      exists c, t. split; [exact Hc|]. split; [exact Et|].
      simpl in E. congruence.
    - intros [c [t [Hc [Et ->]]]].
      exists (load_row parse_datetime today c).
      split; [now apply in_map|]. simpl. now rewrite Et. }
  split; [exact Hk|].
  intros HNaT. apply Hk in HNaT as [c [t [_ [_ E]]]].
  now apply (period_str_not_NaT (period_M t)).
Qed.

(** C1: in a frame of loaded rows, filtered or not, a record whose
    [Last_Login] did not parse is in no [Login_Date], [Week] or [Month]
    group, and the daily, weekly and monthly series are those of the
    frame without such records: no bucket stands for the missing value. *)
Theorem unparseable_login_in_no_bucket {S : Sorter} (csv : list CsvRow)
  (view : DataFrame) (r : Row)
  (Hview : incl view (load_data parse_datetime today csv))
  (Hr : In r view) (Hnull : Last_Login r = None) :
  (forall k g, In (k, g) (groupby Login_Date view) -> ~ In r g)
  /\ (forall k g, In (k, g) (groupby Week view) -> ~ In r g)
  /\ (forall k g, In (k, g) (groupby Month view) -> ~ In r g)
  /\ dau view = dau (with_login view)
  /\ wau view = wau (with_login view)
  /\ monthly_active_users view = monthly_active_users (with_login view).
Proof.
  assert (Hkeys : forall r', In r' view ->
            notna (Login_Date r') = notna (Last_Login r')
            /\ notna (Week r') = notna (Last_Login r')
            /\ notna (Month r') = notna (Last_Login r')).
  { intros r' Hr'. apply (loaded_bucket_keys csv). now apply Hview. }
  destruct (Hkeys r Hr) as [H1 [H2 H3]]. rewrite Hnull in H1, H2, H3.
  split; [|split; [|split; [|split; [|split]]]].
  - apply null_key_in_no_group. now destruct (Login_Date r).
  - apply null_key_in_no_group. now destruct (Week r).
  - apply null_key_in_no_group. now destruct (Month r).
  - unfold dau, groupby_nunique, with_login.
    rewrite (groupby_drops_null_keys Login_Date view). do 2 f_equal.
    apply filter_ext_in. intros r' Hr'. apply (Hkeys r' Hr').
  - unfold wau, groupby_nunique, with_login.
    rewrite (groupby_drops_null_keys Week view). do 2 f_equal.
    apply filter_ext_in. intros r' Hr'. apply (Hkeys r' Hr').
  - unfold monthly_active_users, groupby_nunique, with_login.
    rewrite (groupby_drops_null_keys Month view). do 2 f_equal.
    apply filter_ext_in. intros r' Hr'. apply (Hkeys r' Hr').
Qed.

End DerivedColumns.

Lemma unparseable_login_in_no_bucket_witness :
  incl sample_df (load_data parse_dmy sample_today sample_csv)
  /\ In sample_row_B sample_df
  /\ Last_Login sample_row_B = None
  /\ monthly_active_users (S := stable_sorter) sample_df
     = monthly_active_users (S := stable_sorter) (with_login sample_df)
  /\ monthly_active_users (S := stable_sorter) sample_df
     = [("2024-06", 1%nat)].
Proof.
  assert (Hin : In sample_row_B sample_df) by (right; left; reflexivity).
  split; [apply incl_refl|]. split; [exact Hin|]. split; [reflexivity|].
  split; [|reflexivity].
  apply (unparseable_login_in_no_bucket (S := stable_sorter)
           parse_dmy sample_today sample_csv sample_df sample_row_B
           (incl_refl _) Hin eq_refl).
Defined.

(* ------------------------------------------------------------------ *)
(** ** The active-user series *)

Lemma length_unique_le {K : Type} `{Key K} (l : list K) :
  (List.length (unique l) <= List.length l)%nat.
Proof.
  induction l as [|x l IH]; simpl; [lia|].
  pose proof (filter_length_le (fun y => negb (key_eqb y x)) (unique l)). lia.
Qed.

Lemma length_dropna_le {A : Type} (col : list (option A)) :
  (List.length (dropna col) <= List.length col)%nat.
Proof. induction col as [|[a|] col IH]; simpl; lia. Qed.

Lemma nunique_le_length {K : Type} `{Key K} (col : list (option K)) :
  (nunique col <= List.length col)%nat.
Proof.
  unfold nunique. pose proof (length_unique_le (dropna col)).
  pose proof (length_dropna_le col). lia.
Qed.

Section ActiveUsers.
Context {S : Sorter} {K : Type} `{Key K}.
Variable by_ : Row -> option K.

Lemma groupby_nunique_keys (view : DataFrame) :
  map fst (groupby_nunique by_ User_ID view) = group_keys by_ view.
Proof.
  unfold groupby_nunique. rewrite map_map. simpl. apply groupby_keys.
Qed.

Lemma groupby_nunique_buckets (view : DataFrame) :
  buckets_of by_ view (groupby_nunique by_ User_ID view).
Proof.
  unfold buckets_of. rewrite groupby_nunique_keys.
  split; [apply NoDup_group_keys|].
  split; [apply group_keys_sorted|].
  split; [intros k; apply In_group_keys|].
  apply Forall_forall. intros [k n] Hb.
  unfold groupby_nunique in Hb.
  apply in_map_iff in Hb as [[k' g] [[= <- <-] Hg]].
  apply In_groupby in Hg as [-> _]. reflexivity.
Qed.

Lemma list_sum_nunique_le (groups : list (K * DataFrame)) :
  (list_sum (map (fun g => nunique (map User_ID (snd g))) groups)
   <= List.length (List.concat (map snd groups)))%nat.
Proof.
  induction groups as [|[k g] groups IH]; simpl; [lia|].
  rewrite length_app.
  pose proof (nunique_le_length (map User_ID g)) as Hg.
  rewrite length_map in Hg. lia.
Qed.

Lemma groupby_nunique_counts_cover (view : DataFrame) :
  counts_cover by_ view (groupby_nunique by_ User_ID view).
Proof.
  unfold counts_cover, groupby_nunique. cbv zeta. rewrite map_map. simpl.
  pose proof (groupby_groups_perm by_ view) as Hperm.
  split.
  - (* every user of a keyed row is counted in the bucket of that row *)
    replace (list_sum _)
      with (List.length
              (List.concat
                 (map (fun g => unique (dropna (map User_ID (snd g))))
                    (groupby by_ view))))
      by (rewrite length_concat, map_map; reflexivity).
    apply NoDup_incl_length; [apply NoDup_unique|].
    intros u Hu. apply In_unique, In_dropna, in_map_iff in Hu as [r [Eu Hr]].
    apply (Permutation_in _ (Permutation_sym Hperm)) in Hr.
    apply in_concat in Hr as [g [Hg Hr]].
    apply in_map_iff in Hg as [[k g'] [E Hg]]. simpl in E. subst g'.
    apply in_concat. exists (unique (dropna (map User_ID g))). split.
    + apply in_map_iff. exists (k, g). auto.
    + apply In_unique, In_dropna. rewrite <- Eu. now apply in_map.
  - rewrite <- (Permutation_length Hperm). apply list_sum_nunique_le.
Qed.

End ActiveUsers.

(** X9: the daily, weekly and monthly series: the buckets are the distinct
    non-null values of [Login_Date], [Week] and [Month] in ascending
    order, each with its count of distinct users. *)
Theorem active_user_buckets {S : Sorter} (view df : DataFrame) :
  buckets_of Login_Date view (dau view)
  /\ buckets_of Week view (wau view)
  /\ buckets_of Month df (monthly_active_users df).
Proof. repeat split; apply groupby_nunique_buckets. Qed.

(** X10: no user with a login is missed and no row is counted twice: the
    counts of a series add up to at least the distinct users of the rows
    that have the key, and to at most the number of those rows. *)
Theorem active_user_counts_cover {S : Sorter} (view df : DataFrame) :
  counts_cover Login_Date view (dau view)
  /\ counts_cover Week view (wau view)
  /\ counts_cover Month df (monthly_active_users df).
Proof. repeat split; apply groupby_nunique_counts_cover. Qed.

(** A series over a coarser key counts at least as many users per bucket:
    when the rows of [view] are rows of [df] and the key [by1] of a row
    fixes its key [by2], each [by1] bucket of [view] is within one [by2]
    bucket of [df]. *)
Lemma groupby_nunique_coarser {S : Sorter} {K1 K2 : Type} `{Key K1} `{Key K2}
  (by1 : Row -> option K1) (by2 : Row -> option K2) (f : K1 -> K2)
  (view df : DataFrame) :
  incl view df ->
  (forall r k, In r view -> by1 r = Some k -> by2 r = Some (f k)) ->
  Forall (fun b => exists m, In (f (fst b), m) (groupby_nunique by2 User_ID df)
                             /\ (snd b <= m)%nat)
    (groupby_nunique by1 User_ID view).
Proof.
  intros Hincl Hkey. apply Forall_forall. intros [k n] Hb.
  unfold groupby_nunique in Hb.
  apply in_map_iff in Hb as [[k' g] [[= <- <-] Hg]].
  apply In_groupby in Hg as [-> Hk].
  apply In_group_keys in Hk as [r [Hr Er]].
  exists (nunique (map User_ID (filter (has_key by2 (f k')) df))).
  cbn [fst snd]. split.
  - unfold groupby_nunique, groupby. rewrite map_map. cbn [fst snd].
    apply (in_map (fun x => (x, nunique (map User_ID
                                           (filter (has_key by2 x) df))))).
    apply In_group_keys. exists r. split; [now apply Hincl|now apply Hkey].
  - apply nunique_incl. intros u Hu.
    apply in_map_iff in Hu as [r' [<- Hr']]. apply in_map.
    apply filter_In in Hr' as [Hr' Ek]. apply has_key_true in Ek.
    apply filter_In. split; [now apply Hincl|].
    apply has_key_true. now apply Hkey.
Qed.

(** X11: on a loaded frame, filtered or not, the users active on a day are
    active in the week and in the month of that day: each daily count is
    at most the weekly count of the view for that week, and at most the
    monthly count, which is taken over the whole frame. *)
Theorem daily_within_weekly_and_monthly {S : Sorter}
  (parse_datetime : string -> option Timestamp) (today : Timestamp)
  (csv : list CsvRow) (cs ds : list string) :
  let df := load_data parse_datetime today csv in
  let view := filtered_df df cs ds in
  Forall (fun b => exists w, In (week_of_date (fst b), w) (wau view)
                             /\ (snd b <= w)%nat) (dau view)
  /\ Forall (fun b => exists m,
                 In (month_of_date (fst b), m) (monthly_active_users df)
                 /\ (snd b <= m)%nat) (dau view).
Proof.
  intros df view.
  assert (Hview : incl view df) by (intros r Hr; now apply filter_In in Hr).
  assert (Hload : forall r d, In r view -> Login_Date r = Some d ->
                    Week r = Some (week_of_date d)
                    /\ Month r = Some (month_of_date d)).
  { intros r d Hr. apply Hview in Hr.
    apply in_map_iff in Hr as [c [<- _]]. apply load_row_buckets. }
  split.
  - apply (groupby_nunique_coarser Login_Date Week week_of_date view view).
    + apply incl_refl.
    + intros r d Hr E. now apply Hload.
  - apply (groupby_nunique_coarser Login_Date Month month_of_date view df).
    + exact Hview.
    + intros r d Hr E. now apply Hload.
Qed.

(* ------------------------------------------------------------------ *)
(** ** The key metrics and the ranking *)

(** X13: users against records: the Total Users metric is at most the number
    of records of the view; filtering removes records and users, never
    adds any. *)
Theorem key_metrics_bounds (df : DataFrame) (cs ds : list string) :
  let view := filtered_df df cs ds in
  (total_users view <= List.length view)%nat
  /\ (List.length view <= List.length df)%nat
  /\ (total_users view <= total_users df)%nat.
Proof.
  intros view. split; [|split].
  - unfold total_users. rewrite <- (length_map User_ID view).
    apply nunique_le_length.
  - apply filter_length_le.
  - apply nunique_incl. intros u Hu.
    apply in_map_iff in Hu as [r [<- Hr]]. apply in_map.
    now apply filter_In in Hr.
Qed.

Lemma StronglySorted_app_inv {A : Type} (R : A -> A -> Prop)
  (l1 l2 : list A) :
  StronglySorted R (l1 ++ l2) ->
  forall x y, In x l1 -> In y l2 -> R x y.
Proof.
  induction l1 as [|a l1 IH]; simpl; intros Hs x y Hx Hy; [destruct Hx|].
  apply StronglySorted_inv in Hs as [Hs Ha]. destruct Hx as [<-|Hx].
  - rewrite Forall_forall in Ha. apply Ha, in_or_app. now right.
  - now apply IH.
Qed.

(** X15: the table holds at most ten rows of the view, and every row left out
    has no more revenue than any row shown (a row without revenue is shown
    only when no row with revenue is left out). *)
Theorem top_10_dominates {S : Sorter} (view : DataFrame) :
  (List.length (top_10 view) <= 10)%nat
  /\ exists rest,
       Permutation view (top_10 view ++ rest)
       /\ forall shown left_out,
            In shown (top_10 view) -> In left_out rest ->
            revenue_desc_leb shown left_out = true.
Proof.
  unfold top_10, head. split.
  - rewrite length_firstn. apply Nat.le_min_l.
  - exists (skipn 10 (sort_values_Total_Revenue_USD view)). split.
    + rewrite firstn_skipn. apply sort_values_perm.
    + apply (StronglySorted_app_inv (fun a b => revenue_desc_leb a b = true)).
      rewrite firstn_skipn. apply sort_values_sorted.
Qed.

(* ------------------------------------------------------------------ *)
(** ** The sidebar *)

Lemma In_options (col : Row -> option string) (df : DataFrame) (v : string) :
  In v (options col df) <-> exists r, In r df /\ col r = Some v.
Proof.
  unfold options. rewrite In_unique, In_dropna, in_map_iff.
  split; intros [r Hr]; exists r; tauto.
Qed.

(** X16: the choices of a multiselect are the distinct non-null values of its
    column, each once. *)
Theorem options_distinct_values (col : Row -> option string) (df : DataFrame) :
  NoDup (options col df)
  /\ forall v, In v (options col df) <-> exists r, In r df /\ col r = Some v.
Proof.
  split; [apply NoDup_unique|]. intros v. apply In_options.
Qed.

Lemma isin_options (col : Row -> option string) (df : DataFrame) (r : Row) :
  In r df -> isin (col r) (options col df) = notna (col r).
Proof.
  intros Hr. destruct (col r) as [v|] eqn:E; [|reflexivity].
  simpl. apply existsb_exists. exists v. split; [|apply String.eqb_refl].
  apply In_options. eauto.
Qed.

(** X17: with every choice selected (the default of both widgets) the filter
    drops exactly the rows with a null [Country] or a null
    [Device_Type]. *)
Theorem default_selection_keeps_complete_rows (df : DataFrame) :
  filtered_df df (options Country df) (options Device_Type df)
  = filter (fun r => notna (Country r) && notna (Device_Type r)) df.
Proof.
  unfold filtered_df. apply filter_ext_in. intros r Hr.
  now rewrite !isin_options.
Qed.

(** X18: selecting a value that no row has changes nothing: only the selected
    values among the choices matter. *)
Theorem selection_outside_options_is_void (df : DataFrame)
  (cs ds : list string) :
  filtered_df df cs ds
  = filtered_df df
      (filter (fun c => existsb (String.eqb c) (options Country df)) cs)
      (filter (fun d => existsb (String.eqb d) (options Device_Type df)) ds).
Proof.
  unfold filtered_df. apply filter_ext_in. intros r Hr.
  assert (Hcol : forall (col : Row -> option string) vs,
             isin (col r) vs
             = isin (col r)
                 (filter (fun v => existsb (String.eqb v) (options col df)) vs)).
  { intros col vs. destruct (col r) as [v|] eqn:E; [|reflexivity].
    simpl. apply eq_true_iff_eq. rewrite !existsb_exists.
    split; intros [x [Hx Ex]]; exists x; (split; [|exact Ex]).
    - apply filter_In. split; [exact Hx|].
      apply String.eqb_eq in Ex. subst x.
      apply existsb_exists. exists v. split; [|apply String.eqb_refl].
      apply In_options. eauto.
    - now apply filter_In in Hx. }
  now rewrite <- !Hcol.
Qed.

(* ------------------------------------------------------------------ *)
(** ** Column names *)

Lemma lstrip_nonspace (c : Z) (s : PyStr) :
  isspace c = false -> lstrip (c :: s) = c :: s.
Proof. intros E. simpl. now rewrite E. Qed.

Lemma lstrip_cases (s : PyStr) :
  lstrip s = [] \/ exists c s', lstrip s = c :: s' /\ isspace c = false.
Proof.
  induction s as [|c s IH]; simpl; [now left|].
  destruct (isspace c) eqn:E; [exact IH|]. right. eauto.
Qed.

Lemma lstrip_idem (s : PyStr) : lstrip (lstrip s) = lstrip s.
Proof.
  destruct (lstrip_cases s) as [->|[c [s' [-> E]]]]; [reflexivity|].
  now apply lstrip_nonspace.
Qed.

Lemma lstrip_app_nonspace (l : PyStr) (c : Z) :
  isspace c = false -> exists l', lstrip (l ++ [c]) = l' ++ [c].
Proof.
  intros E. induction l as [|a l IH]; simpl.
  - rewrite E. now exists [].
  - destruct (isspace a); [exact IH|]. now exists (a :: l).
Qed.

Lemma strip_trimmed (s : PyStr) : trimmed (strip s).
Proof.
  unfold trimmed, strip. split.
  - destruct (lstrip_cases s) as [->|[c [s' [-> E]]]]; [reflexivity|].
    change (rev (c :: s')) with (rev s' ++ [c]).
    destruct (lstrip_app_nonspace (rev s') c E) as [l' ->].
    rewrite rev_app_distr. simpl. now rewrite E.
  - rewrite rev_involutive. apply lstrip_idem.
Qed.

Lemma strip_of_trimmed (s : PyStr) : trimmed s -> strip s = s.
Proof.
  intros [Hl Hr]. unfold strip. rewrite Hl, Hr. apply rev_involutive.
Qed.

Lemma replace_space_head (s : PyStr) :
  lstrip s = s -> lstrip (replace_space s) = replace_space s.
Proof.
  destruct s as [|c s]; [reflexivity|]. simpl.
  destruct (isspace c) eqn:E.
  - intros Hs. exfalso.
    destruct (lstrip_cases s) as [E'|[c' [s' [E' _]]]];
      rewrite E' in Hs; [discriminate|].
    assert (Hlen : (List.length (lstrip s) <= List.length s)%nat).
    { clear. induction s as [|a s IH]; simpl; [lia|].
      destruct (isspace a); simpl; lia. }
    rewrite E', Hs in Hlen. simpl in Hlen. lia.
  - intros _. destruct (Z.eqb_spec c 32) as [->|Hc]; [discriminate|].
    now rewrite E.
Qed.

Lemma replace_space_trimmed (s : PyStr) :
  trimmed s -> trimmed (replace_space s).
Proof.
  intros [Hl Hr]. split; [now apply replace_space_head|].
  unfold replace_space. rewrite <- map_rev.
  now apply replace_space_head.
Qed.

Lemma replace_space_idem (s : PyStr) :
  replace_space (replace_space s) = replace_space s.
Proof.
  unfold replace_space. rewrite map_map. apply map_ext. intros c.
  destruct (Z.eqb_spec c 32) as [->|Hc]; [reflexivity|].
  now destruct (Z.eqb_spec c 32).
Qed.

(** X19: the normalised name has no whitespace at either end and no space
    within, and normalising it again leaves it as it is. *)
Theorem normalize_column_normal_form (name : PyStr) :
  trimmed (normalize_column name)
  /\ ~ In 32 (normalize_column name)
  /\ normalize_column (normalize_column name) = normalize_column name.
Proof.
  unfold normalize_column. split; [|split].
  - apply replace_space_trimmed, strip_trimmed.
  - unfold replace_space. rewrite in_map_iff. intros [c [E _]].
    destruct (Z.eqb_spec c 32); lia.
  - rewrite strip_of_trimmed
      by apply replace_space_trimmed, strip_trimmed.
    apply replace_space_idem.
Qed.

(** The headers of the file with stray blanks give the column names the
    script uses. *)
Example normalize_column_headers :
  normalize_column (codepoints " Signup Date ") = codepoints "Signup_Date"
  /\ normalize_column (codepoints "Total Revenue USD")
     = codepoints "Total_Revenue_USD"
  /\ normalize_column (codepoints "User_ID") = codepoints "User_ID".
Proof. repeat split. Qed.

(* ------------------------------------------------------------------ *)
(** ** More on the loaded frame and the series *)

(** X8: [Days_Since_Last_Login] counts whole days from the last login to the
    clock, rounding down: it is negative exactly for a login later than
    the clock, and [-1] for a login up to a day ahead of it. *)
Theorem days_since_last_login_floor
  (parse_datetime : string -> option Timestamp) (today : Timestamp)
  (csv : list CsvRow) :
  Forall (fun r =>
            forall t, Last_Login r = Some t ->
              exists d, Days_Since_Last_Login r = Some d
                        /\ d * ns_per_day <= today - t < (d + 1) * ns_per_day
                        /\ (d < 0 <-> today < t)
                        /\ (today < t <= today + ns_per_day -> d = -1))
    (load_data parse_datetime today csv).
Proof.
  apply Forall_forall. intros r Hr. apply in_map_iff in Hr as [c [<- _]].
  simpl. intros t ->. simpl. eexists. split; [reflexivity|].
  unfold timedelta_days, ns_per_day. simpl Z.mul at 1.
  repeat split; intros; Z.div_mod_to_equations; lia.
Qed.

(** X12: filtering never raises a count: every daily or weekly bucket of a
    filtered view is a bucket of the whole frame, with at least as many
    users there. *)
Theorem filter_lowers_active_users {S : Sorter} (df : DataFrame)
  (cs ds : list string) :
  let view := filtered_df df cs ds in
  Forall (fun b => exists n, In (fst b, n) (dau df) /\ (snd b <= n)%nat)
    (dau view)
  /\ Forall (fun b => exists n, In (fst b, n) (wau df) /\ (snd b <= n)%nat)
       (wau view).
Proof.
  intros view.
  assert (Hview : incl view df) by (intros r Hr; now apply filter_In in Hr).
  split.
  - apply (groupby_nunique_coarser Login_Date Login_Date (fun d => d));
      [exact Hview|auto].
  - apply (groupby_nunique_coarser Week Week (fun w => w));
      [exact Hview|auto].
Qed.

Lemma sort_index_of_sorted {S : Sorter} {K V : Type} `{Key K}
  (s : list (K * V)) :
  sorted_by fst_leb s -> NoDup (map fst s) -> sort_index s = s.
Proof.
  intros Hs Hnd. symmetry. apply sorted_by_key_unique.
  - apply sort_perm.
  - exact Hs.
  - apply sort_sorted; [apply fst_leb_total|apply fst_leb_trans].
  - exact Hnd.
Qed.

Lemma sorted_by_fst_of_keys {K V : Type} `{Key K} (f : K -> V)
  (ks : list K) :
  sorted_by key_leb ks -> sorted_by fst_leb (map (fun k => (k, f k)) ks).
Proof.
  unfold sorted_by. induction 1 as [|k ks Hs IH Hk]; simpl; constructor.
  - exact IH.
  - apply Forall_map. exact Hk.
Qed.

(** X5: the group sums come out of [groupby] in ascending order of the signup
    date already: the [sort_index()] of the script changes nothing, and
    the curve is the running sum of the group sums as they are. *)
Theorem sort_index_after_groupby_is_identity {S : Sorter} (df : DataFrame) :
  let sums :=
    groupby_sum Signup_Date Total_Revenue_USD (revenue_by_signup df) in
  sort_index sums = sums /\ daily_revenue df = cumsum sums.
Proof.
  intros sums.
  assert (E : sort_index sums = sums).
  { apply sort_index_of_sorted.
    - unfold sums, groupby_sum, groupby. rewrite map_map. cbn [fst snd].
      apply (sorted_by_fst_of_keys
               (fun k => series_sum
                           (map Total_Revenue_USD
                              (filter (has_key Signup_Date k)
                                 (revenue_by_signup df))))).
      apply group_keys_sorted.
    - unfold sums, groupby_sum. rewrite map_map. cbn [fst].
      rewrite groupby_keys. apply NoDup_group_keys. }
  split; [exact E|]. unfold daily_revenue. fold sums. now rewrite E.
Qed.

(* ------------------------------------------------------------------ *)
(** ** The revenue curve of an [int64] column *)








Section Int64Curve.
Context {S : Sorter}.



End Int64Curve.



(** The specification's series on the sample frame. *)
Example cumulativeRevenueBySignup_spec_sample :
  cumulativeRevenueBySignup_spec sample_df
  = [ (timestamp_of_date (mkDate 2024 2 1), inject_Z 20);
      (timestamp_of_date (mkDate 2024 3 5), inject_Z 35) ].
Proof. vm_compute. reflexivity. Qed.
